(** * Task-list HTTP service (main.py): a shallow embedding and its properties

    The service is a FastAPI application with one diagnostics route and four
    CRUD routes over the [task] collection of a MongoDB database.  Every
    handler is embedded as a computation in a state-and-exception monad over
    the module-level handle [db]; Python dictionaries are finite maps from
    field names to values.

    Text is modelled by [string], one 8-bit character per Python character,
    so the statements below are about ASCII text. *)

From Stdlib Require Import Ascii String.
From stdpp Require Import base option list strings pretty gmap fin_maps.

Local Open Scope string_scope.
Local Open Scope list_scope.

(** ** Characters and text *)

Definition code (c : ascii) : nat := nat_of_ascii c.

Definition in_range (lo hi : nat) (c : ascii) : bool :=
  (lo <=? code c)%nat && (code c <=? hi)%nat.

Definition is_upper (c : ascii) : bool := in_range 65 90 c.
Definition is_lower (c : ascii) : bool := in_range 97 122 c.
Definition is_digit (c : ascii) : bool := in_range 48 57 c.
Definition is_alnum (c : ascii) : bool := is_upper c || is_lower c || is_digit c.

(** ASCII case folding, as used by a caseless comparison. *)
Definition lower (c : ascii) : ascii :=
  if is_upper c then ascii_of_nat (code c + 32) else c.

Fixpoint lower_str (s : string) : string :=
  match s with
  | EmptyString => EmptyString
  | String c r => String (lower c) (lower_str r)
  end.

Fixpoint str_mem (c : ascii) (s : string) : bool :=
  match s with
  | EmptyString => false
  | String a r => if decide (a = c) then true else str_mem c r
  end.

(** [s[:n]] *)
Definition py_slice_to (n : nat) (s : string) : string := substring 0 n s.

Definition digit (n : nat) : ascii := ascii_of_nat (48 + n mod 10).

(** ["%02d"], ["%04d"] and ["%06d"] on the ranges a datetime field can take. *)
Definition pad2 (n : nat) : string :=
  String (digit (n / 10)) (String (digit n) EmptyString).
Definition pad4 (n : nat) : string := pad2 (n / 100) +:+ pad2 n.
Definition pad6 (n : nat) : string := pad2 (n / 100 / 100) +:+ pad4 n.

Definition hexdigit (n : nat) : ascii :=
  if (n mod 16 <? 10)%nat then ascii_of_nat (48 + n mod 16)
  else ascii_of_nat (87 + n mod 16).

Definition hex_value (c : ascii) : option nat :=
  if is_digit c then Some (code c - 48)%nat
  else if in_range 97 102 c then Some (code c - 87)%nat
  else if in_range 65 70 c then Some (code c - 55)%nat
  else None.

Definition squote : ascii := "'"%char.
Definition dquote : ascii := "034"%char.
Definition backslash : ascii := "\"%char.

(** [repr] of a Python [str]: the quote is a single quote unless the text
    holds a single quote and no double quote; the quote, the backslash and
    the control characters are escaped. *)
Definition repr_char (q : ascii) (c : ascii) : string :=
  if decide (c = q) then String backslash (String c EmptyString)
  else if decide (c = backslash) then "\\"
  else if decide (code c = 9) then "\t"
  else if decide (code c = 10) then "\n"
  else if decide (code c = 13) then "\r"
  else if (code c <? 32)%nat || (code c =? 127)%nat
       then "\x" +:+ String (hexdigit (code c / 16)) (String (hexdigit (code c)) EmptyString)
  else String c EmptyString.

Fixpoint repr_body (q : ascii) (s : string) : string :=
  match s with
  | EmptyString => EmptyString
  | String c r => repr_char q c +:+ repr_body q r
  end.

Definition repr (s : string) : string :=
  let q := if str_mem squote s && negb (str_mem dquote s) then dquote else squote in
  String q (repr_body q s) +:+ String q EmptyString.

(** ** datetime *)

(** A naive [datetime.datetime], as the driver returns it. *)
Record datetime := mkDatetime {
  year : nat; month : nat; day : nat;
  hour : nat; minute : nat; second : nat; microsecond : nat
}.

(** [datetime.isoformat(sep)]: [YYYY-MM-DDTHH:MM:SS], followed by [.ffffff]
    when the microsecond is not zero. *)
Definition isoformat_sep (sep : ascii) (d : datetime) : string :=
  pad4 (year d) +:+ "-" +:+ pad2 (month d) +:+ "-" +:+ pad2 (day d)
  +:+ String sep (pad2 (hour d) +:+ ":" +:+ pad2 (minute d) +:+ ":" +:+ pad2 (second d))
  +:+ (if decide (microsecond d = 0%nat) then "" else "." +:+ pad6 (microsecond d)).

Definition isoformat (d : datetime) : string := isoformat_sep "T" d.

(** A datetime as the store keeps it.  BSON holds a datetime as a number of
    milliseconds, so the microseconds below a millisecond are dropped when a
    document is encoded. *)
Definition to_millis (d : datetime) : datetime :=
  mkDatetime (year d) (month d) (day d) (hour d) (minute d) (second d)
    (microsecond d / 1000 * 1000).

(** ** bson.ObjectId *)

Record ObjectId := mkObjectId { binary : string }.

(** ASCII white space: the space and the characters from tab to carriage
    return. *)
Definition is_space (c : ascii) : bool := (code c =? 32)%nat || in_range 9 13 c.

(** [bytes.fromhex]: pairs of hexadecimal digits, with any ASCII white space
    before a pair or at the end skipped; white space inside a pair, a digit
    left alone or any other character is an error. *)
Fixpoint fromhex (s : string) : option string :=
  match s with
  | EmptyString => Some EmptyString
  | String a r =>
      if is_space a then fromhex r
      else
        match r with
        | String b r' =>
            match hex_value a, hex_value b, fromhex r' with
            | Some h, Some l, Some t => Some (String (ascii_of_nat (16 * h + l)) t)
            | _, _, _ => None
            end
        | EmptyString => None
        end
  end.

(** [bytes.hex] *)
Fixpoint hex (b : string) : string :=
  match b with
  | EmptyString => EmptyString
  | String c r => String (hexdigit (code c / 16)) (String (hexdigit (code c)) (hex r))
  end.

(** [str(ObjectId)] *)
Definition str_ObjectId (o : ObjectId) : string := hex (binary o).

(** ** Values and documents *)

Inductive value :=
| VNone
| VBool (b : bool)
| VStr (s : string)
| VDatetime (d : datetime)
| VObjectId (o : ObjectId).

#[global] Instance datetime_eq_dec : EqDecision datetime.
Proof. solve_decision. Defined.
#[global] Instance ObjectId_eq_dec : EqDecision ObjectId.
Proof. solve_decision. Defined.
#[global] Instance value_eq_dec : EqDecision value.
Proof. solve_decision. Defined.

(** A Python [dict] with string keys. *)
Abbreviation dict := (gmap string value).

(** A value as the store keeps it. *)
Definition bson_value (v : value) : value :=
  match v with
  | VDatetime d => VDatetime (to_millis d)
  | _ => v
  end.

(** A document, or a [$set] document, as the store keeps it. *)
Definition bson_doc (d : dict) : dict := bson_value <$> d.

Definition py_bool_str (b : bool) : string := if b then "True" else "False".

(** [str(v)] *)
Definition py_str (v : value) : string :=
  match v with
  | VNone => "None"
  | VBool b => py_bool_str b
  | VStr s => s
  | VDatetime d => isoformat_sep " " d
  | VObjectId o => str_ObjectId o
  end.

Definition is_datetime (v : value) : bool :=
  match v with VDatetime _ => true | _ => false end.

(** ** Exceptions *)

(** Every class below derives from [Exception]. *)
Inductive exn :=
| HTTPException (status_code : nat) (detail : string)
| Exception (msg : string)
| InvalidId (oid : string)
| KeyError (key : string)
| TypeError (msg : string)
| PyMongoError (msg : string).

Definition invalid_id_message (oid : string) : string :=
  repr oid +:+ " is not a valid ObjectId, it must be a 12-byte input or a 24-character hex string".

(** [str(e)] *)
Definition str_exn (e : exn) : string :=
  match e with
  | HTTPException status_code detail => pretty status_code +:+ ": " +:+ detail
  | Exception msg => msg
  | InvalidId oid => invalid_id_message oid
  | KeyError key => repr key
  | TypeError msg => msg
  | PyMongoError msg => msg
  end.

(** What running a piece of code gives.  [Unmodelled] marks a run that
    leaves the part of the store's query language described here (see
    [regex_compile]); it is not an exception and no handler catches it. *)
Inductive outcome (A : Type) :=
| Return (a : A)
| Raise (e : exn)
| Unmodelled.
Arguments Return {A} a.
Arguments Raise {A} e.
Arguments Unmodelled {A}.

(** [ObjectId(oid)] for a [str] argument: text of length 24 that
    [bytes.fromhex] accepts.  With 24 hexadecimal digits the identifier has
    twelve bytes; text of length 24 that holds white space is accepted too
    and gives an identifier of fewer bytes. *)
Definition ObjectId_new (oid : string) : outcome ObjectId :=
  if decide (String.length oid = 24%nat) then
    match fromhex oid with
    | Some b => Return (mkObjectId b)
    | None => Raise (InvalidId oid)
    end
  else Raise (InvalidId oid).

(** ** A monad for code that mutates a state and raises *)

Definition M (S A : Type) : Type := S -> S * outcome A.

Definition ret {S A} (a : A) : M S A := fun s => (s, Return a).
Definition raise {S A} (e : exn) : M S A := fun s => (s, Raise e).
Definition lift {S A} (r : outcome A) : M S A := fun s => (s, r).
Definition get {S} : M S S := fun s => (s, Return s).
Definition modify {S} (f : S -> S) : M S unit := fun s => (f s, Return tt).

Definition bind {S A B} (m : M S A) (k : A -> M S B) : M S B :=
  fun s =>
    match m s with
    | (s', Return a) => k a s'
    | (s', Raise e) => (s', Raise e)
    | (s', Unmodelled) => (s', Unmodelled)
    end.

(** [try: m  except Exception as e: h e] *)
Definition try_except {S A} (m : M S A) (h : exn -> M S A) : M S A :=
  fun s =>
    match m s with
    | (s', Raise e) => h e s'
    | r => r
    end.

Notation "x <- m ;; k" := (bind m (fun x => k))
  (at level 100, m at next level, right associativity).
Notation "m ;;; k" := (bind m (fun _ => k))
  (at level 100, right associativity).

Fixpoint mapM {S A B} (f : A -> M S B) (l : list A) : M S (list B) :=
  match l with
  | [] => ret []
  | x :: r => y <- f x ;; ys <- mapM f r ;; ret (y :: ys)
  end.

(** The status line FastAPI answers with. *)
Definition http_status {A} (r : outcome A) : option nat :=
  match r with
  | Return _ => Some 200%nat
  | Raise (HTTPException status_code _) => Some status_code
  | Raise _ => Some 500%nat
  | Unmodelled => None
  end.

(** ** The store: regular expressions

    [$regex] patterns are Perl-compatible regular expressions.  The fragment
    described here is a sequence of literal characters, dots and escaped
    punctuation, with no option or the option [i]; any other pattern makes
    the query [Unmodelled]. *)

Inductive item :=
| Lit (c : ascii)
| AnyChar.

(** The characters with a special meaning outside a character class, the
    closing brackets, and NUL. *)
Definition is_meta (c : ascii) : bool :=
  str_mem c "\^$.[]|()?*+{}" || (code c =? 0)%nat.

(** A backslash before an ASCII character that is neither a letter nor a
    digit stands for that character. *)
Definition escapable (c : ascii) : bool :=
  negb (is_alnum c) && (0 <? code c)%nat && (code c <? 128)%nat.

Fixpoint regex_compile (p : string) : option (list item) :=
  match p with
  | EmptyString => Some []
  | String c rest =>
      if decide (c = backslash) then
        match rest with
        | String e rest' =>
            if escapable e then (Lit e ::.) <$> regex_compile rest' else None
        | EmptyString => None
        end
      else if decide (c = "."%char) then (AnyChar ::.) <$> regex_compile rest
      else if is_meta c then None
      else (Lit c ::.) <$> regex_compile rest
  end.

Definition regex_options (o : string) : option bool :=
  if decide (o = "") then Some false
  else if decide (o = "i") then Some true
  else None.

Definition match_item (icase : bool) (it : item) (c : ascii) : bool :=
  match it with
  | Lit a => if icase then bool_decide (lower a = lower c) else bool_decide (a = c)
  | AnyChar => negb (code c =? 10)%nat
  end.

(** The pattern matches at the start of the subject. *)
Fixpoint match_here (icase : bool) (its : list item) (s : string) : bool :=
  match its, s with
  | [], _ => true
  | it :: r, String c s' => match_item icase it c && match_here icase r s'
  | _ :: _, EmptyString => false
  end.

(** The pattern matches somewhere in the subject (patterns are not anchored). *)
Fixpoint regex_search (icase : bool) (its : list item) (s : string) : bool :=
  match_here icase its s ||
  match s with
  | EmptyString => false
  | String _ s' => regex_search icase its s'
  end.

(** ** The store: queries *)

Inductive cond :=
| CEq (v : value)
| CRegex (pattern options : string).

(** One entry of a filter document: a condition on a field, or [$or] over
    filter documents. *)
Inductive clause :=
| Field (key : string) (c : cond)
| Or (alts : list (list (string * cond))).

Abbreviation filter_doc := (list clause).

Definition cond_supported (c : cond) : bool :=
  match c with
  | CEq _ => true
  | CRegex p o => bool_decide (is_Some (regex_compile p)) && bool_decide (is_Some (regex_options o))
  end.

Definition clause_supported (c : clause) : bool :=
  match c with
  | Field _ c => cond_supported c
  | Or alts => forallb (forallb (fun kc => cond_supported (snd kc))) alts
  end.

Definition eval_cond (d : dict) (key : string) (c : cond) : bool :=
  match c with
  | CEq VNone => bool_decide (d !! key = None) || bool_decide (d !! key = Some VNone)
  | CEq v => bool_decide (d !! key = Some v)
  | CRegex p o =>
      match d !! key, regex_compile p, regex_options o with
      | Some (VStr s), Some its, Some icase => regex_search icase its s
      | _, _, _ => false
      end
  end.

Definition eval_clause (d : dict) (c : clause) : bool :=
  match c with
  | Field key c => eval_cond d key c
  | Or alts => existsb (forallb (fun kc => eval_cond d (fst kc) (snd kc))) alts
  end.

(** A document satisfies a filter document when it satisfies every entry. *)
Definition eval_filter (flt : filter_doc) (d : dict) : bool :=
  forallb (eval_clause d) flt.

(** ** The store: the database behind the handle [db] *)

(** The [task] collection keeps its documents in insertion order, each under
    the [_id] it was stored with.  When [fault] is set the server cannot be
    reached and every call fails with that text. *)
Record Database := mkDatabase {
  name : option string;
  fault : option string;
  collection_names : list string;
  task : list (ObjectId * dict)
}.

(** The module-level [db], [None] when the connection was not set up. *)
Abbreviation handle := (option Database).

Definition set_task (l : list (ObjectId * dict)) (D : Database) : Database :=
  mkDatabase (name D) (fault D) (collection_names D) l.

(** The document as a query returns it. *)
Definition to_dict (t : ObjectId * dict) : dict :=
  <["_id" := VObjectId (fst t)]> (snd t).

(** A round trip to the server on the handle. *)
Definition server_call {A} (f : Database -> Database * outcome A) : M handle A :=
  fun w =>
    match w with
    | None => (None, Raise (TypeError "'NoneType' object is not subscriptable"))
    | Some D =>
        match fault D with
        | Some msg => (Some D, Raise (PyMongoError msg))
        | None => let '(D', r) := f D in (Some D', r)
        end
    end.

Definition immutable_id_message : string :=
  "Performing an update on the path '_id' would modify the immutable field '_id'".

(** [$set]: the fields of [data], as the store keeps them, replace or extend
    those of the document. *)
Definition apply_set (data : dict) (t : ObjectId * dict) : outcome (ObjectId * dict) :=
  match data !! "_id" with
  | Some v =>
      if decide (v = VObjectId (fst t))
      then Return (fst t, delete "_id" (bson_doc data) ∪ snd t)
      else Raise (PyMongoError immutable_id_message)
  | None => Return (fst t, bson_doc data ∪ snd t)
  end.

(** The first document with the given [_id] is updated. *)
Fixpoint update_first (o : ObjectId) (data : dict) (l : list (ObjectId * dict))
  : outcome (option dict * list (ObjectId * dict)) :=
  match l with
  | [] => Return (None, [])
  | t :: r =>
      if decide (fst t = o) then
        match apply_set data t with
        | Return t' => Return (Some (to_dict t'), t' :: r)
        | Raise e => Raise e
        | Unmodelled => Unmodelled
        end
      else
        match update_first o data r with
        | Return (res, r') => Return (res, t :: r')
        | Raise e => Raise e
        | Unmodelled => Unmodelled
        end
  end.

(** [db["task"].find_one_and_update({"_id": o}, {"$set": data}, return_document=True)] *)
Definition find_one_and_update (o : ObjectId) (data : dict) : M handle (option dict) :=
  server_call (fun D =>
    match update_first o data (task D) with
    | Return (res, l) => (set_task l D, Return res)
    | Raise e => (D, Raise e)
    | Unmodelled => (D, Unmodelled)
    end).

Fixpoint remove_first (o : ObjectId) (l : list (ObjectId * dict))
  : nat * list (ObjectId * dict) :=
  match l with
  | [] => (0%nat, [])
  | t :: r =>
      if decide (fst t = o) then (1%nat, r)
      else let '(n, r') := remove_first o r in (n, t :: r')
  end.

(** [db["task"].delete_one({"_id": o}).deleted_count] *)
Definition delete_one (o : ObjectId) : M handle nat :=
  server_call (fun D =>
    let '(n, l) := remove_first o (task D) in (set_task l D, Return n)).

(** [db["task"].insert_one(doc)], the store assigning [new_id]. *)
Definition insert_one (new_id : ObjectId) (doc : dict) : M handle ObjectId :=
  server_call (fun D =>
    match doc !! "_id" with
    | None => (set_task (task D ++ [(new_id, bson_doc doc)]) D, Return new_id)
    | Some (VObjectId o) =>
        (set_task (task D ++ [(o, delete "_id" (bson_doc doc))]) D, Return o)
    | Some _ => (D, Unmodelled)
    end).

(** [list(db["task"].find(flt))] *)
Definition find (flt : filter_doc) : M handle (list dict) :=
  server_call (fun D =>
    if forallb clause_supported flt
    then (D, Return (filter (fun d => eval_filter flt d) (to_dict <$> task D)))
    else (D, Unmodelled)).

(** [db.list_collection_names()] *)
Definition list_collection_names : M handle (list string) :=
  server_call (fun D => (D, Return (collection_names D))).

(** ** Request bodies (main.py, lines 60-73) *)

Record TaskCreate := mkTaskCreate {
  c_title : string;
  c_description : option string;
  c_category : option string;
  c_due_date : option datetime;
  c_priority : option string
}.

Record TaskUpdate := mkTaskUpdate {
  title : option string;
  description : option string;
  category : option string;
  due_date : option datetime;
  priority : option string;
  completed : option bool
}.

(** A JSON member of a request body as the client sent it. *)
Inductive member (A : Type) :=
| Omitted
| Null
| Given (a : A).
Arguments Omitted {A}.
Arguments Null {A}.
Arguments Given {A} a.

Record TaskUpdateBody := mkTaskUpdateBody {
  b_title : member string;
  b_description : member string;
  b_category : member string;
  b_due_date : member datetime;
  b_priority : member string;
  b_completed : member bool
}.

(** An [Optional[...] = None] field: a member left out takes the default
    [None], and a [null] member validates to [None]. *)
Definition optional {A} (m : member A) : option A :=
  match m with
  | Omitted => None
  | Null => None
  | Given a => Some a
  end.

(** The [TaskUpdate] that FastAPI hands to the handler. *)
Definition validate_TaskUpdate (b : TaskUpdateBody) : TaskUpdate :=
  mkTaskUpdate (optional (b_title b)) (optional (b_description b))
    (optional (b_category b)) (optional (b_due_date b))
    (optional (b_priority b)) (optional (b_completed b)).

Definition opt_value {A} (f : A -> value) (o : option A) : value :=
  match o with
  | Some a => f a
  | None => VNone
  end.

(** [payload.model_dump()]: every declared field, [None] included. *)
Definition TaskCreate_model_dump (p : TaskCreate) : dict :=
  <["title" := VStr (c_title p)]>
  (<["description" := opt_value VStr (c_description p)]>
  (<["category" := opt_value VStr (c_category p)]>
  (<["due_date" := opt_value VDatetime (c_due_date p)]>
  (<["priority" := opt_value VStr (c_priority p)]> ∅)))).

Definition TaskUpdate_model_dump (p : TaskUpdate) : dict :=
  <["title" := opt_value VStr (title p)]>
  (<["description" := opt_value VStr (description p)]>
  (<["category" := opt_value VStr (category p)]>
  (<["due_date" := opt_value VDatetime (due_date p)]>
  (<["priority" := opt_value VStr (priority p)]>
  (<["completed" := opt_value VBool (completed p)]> ∅))))).

(** ** database.py and schemas.py *)

(** Modelled from the spec: the [Task] schema of schemas.py, which is not
    among the sources.  A task has a title, the optional description,
    category, due date and priority, and the boolean [completed]; building
    one validates nothing beyond the types of the fields. *)
Record Task := mkTask {
  t_title : string;
  t_description : option string;
  t_category : option string;
  t_due_date : option datetime;
  t_priority : option string;
  t_completed : bool
}.

(** The [Task] built from the dumped payload and the keyword [completed]. *)
Definition Task_new (p : TaskCreate) (completed : bool) : Task :=
  mkTask (c_title p) (c_description p) (c_category p) (c_due_date p)
    (c_priority p) completed.

Definition Task_model_dump (t : Task) : dict :=
  <["title" := VStr (t_title t)]>
  (<["description" := opt_value VStr (t_description t)]>
  (<["category" := opt_value VStr (t_category t)]>
  (<["due_date" := opt_value VDatetime (t_due_date t)]>
  (<["priority" := opt_value VStr (t_priority t)]>
  (<["completed" := VBool (t_completed t)]> ∅))))).

Definition not_available : string := "Database not available".

(** Modelled from the spec: the document that [create_document] of
    database.py, which is not among the sources, hands to the store.  It is
    made of the fields of the task and the server timestamps [created_at]
    and [updated_at]. *)
Definition new_document (now : datetime) (data : Task) : dict :=
  <["updated_at" := VDatetime now]>
  (<["created_at" := VDatetime now]> (Task_model_dump data)).

(** Modelled from the spec: [create_document] of database.py, which is not
    among the sources.  It inserts one new document and returns the
    identifier the store assigned, as text; it fails when the store does. *)
Definition create_document (now : datetime) (new_id : ObjectId)
    (collection_name : string) (data : Task) : M handle string :=
  w <- get ;;
  match w with
  | None => raise (Exception not_available)
  | Some _ =>
      if decide (collection_name = "task") then
        inserted_id <- insert_one new_id (new_document now data) ;;
        ret (str_ObjectId inserted_id)
      else lift Unmodelled
  end.

(** Modelled from the spec: [get_documents] of database.py, which is not
    among the sources.  It is the store's [find] on the collection with the
    filter document, and returns the list of the documents found; it fails
    when the store does. *)
Definition get_documents (collection_name : string) (filter_dict : filter_doc)
  : M handle (list dict) :=
  w <- get ;;
  match w with
  | None => raise (Exception not_available)
  | Some _ =>
      if decide (collection_name = "task") then find filter_dict
      else lift Unmodelled
  end.

(** ** The handlers of main.py *)

(** Truth value of an [Optional[str]]: [None] and the empty text are false. *)
Definition truthy (o : option string) : bool :=
  match o with
  | Some s => negb (bool_decide (s = ""))
  | None => false
  end.

(** Truth value of what [find_one_and_update] returns. *)
Definition truthy_doc (o : option dict) : bool :=
  match o with
  | Some d => negb (bool_decide (d = ∅))
  | None => false
  end.

(** *** GET /test (lines 26-57) *)

Inductive dvalue :=
| DNone
| DStr (s : string)
| DList (l : list string).

Abbreviation report := (gmap string dvalue).

(** A call on the handle from code whose state is the [response] dictionary;
    the calls made this way only read the database. *)
Definition on_db {A} (db : handle) (m : M handle A) : M report A :=
  fun r => (r, snd (m db)).

Definition set_item (k : string) (v : dvalue) : M report unit :=
  modify (<[k := v]>).

Definition test_database (getenv : string -> option string) (db : handle)
  : outcome report :=
  let response : report :=
    <["backend" := DStr "✅ Running"]>
    (<["database" := DStr "❌ Not Available"]>
    (<["database_url" := DNone]>
    (<["database_name" := DNone]>
    (<["connection_status" := DStr "Not Connected"]>
    (<["collections" := DList []]> ∅))))) in
  let body : M report unit :=
    try_except
      (match db with
       | Some D =>
           set_item "database" (DStr "✅ Available") ;;;
           set_item "database_url"
             (DStr (if truthy (getenv "DATABASE_URL") then "✅ Set" else "❌ Not Set")) ;;;
           set_item "database_name"
             (DStr (match name D with Some n => n | None => "✅ Connected" end)) ;;;
           set_item "connection_status" (DStr "Connected") ;;;
           try_except
             (collections <- on_db db list_collection_names ;;
              set_item "collections" (DList (take 10 collections)) ;;;
              set_item "database" (DStr "✅ Connected & Working"))
             (fun e =>
                set_item "database"
                  (DStr ("⚠️  Connected but Error: " +:+ py_slice_to 50 (str_exn e))))
       | None => set_item "database" (DStr "⚠️  Available but not initialized")
       end)
      (fun e => set_item "database" (DStr ("❌ Error: " +:+ py_slice_to 50 (str_exn e)))) ;;;
    set_item "database_url"
      (DStr (if truthy (getenv "DATABASE_URL") then "✅ Set" else "❌ Not Set")) ;;;
    set_item "database_name"
      (DStr (if truthy (getenv "DATABASE_NAME") then "✅ Set" else "❌ Not Set")) in
  match body response with
  | (r, Return _) => Return r
  | (_, Raise e) => Raise e
  | (_, Unmodelled) => Unmodelled
  end.

(** *** The rendering of a document (lines 99-105 and 124-130) *)

(** [if k in d and isinstance(d[k], datetime): d[k] = d[k].isoformat()] *)
Definition iso_field (k : string) (d : dict) : dict :=
  match d !! k with
  | Some (VDatetime t) => <[k := VStr (isoformat t)]> d
  | _ => d
  end.

Definition normalize (d : dict) : outcome dict :=
  match d !! "_id" with
  | None => Raise (KeyError "_id")
  | Some v =>
      let d := <["id" := VStr (py_str v)]> (delete "_id" d) in
      let d := iso_field "created_at" d in
      let d := iso_field "updated_at" d in
      let d := iso_field "due_date" d in
      Return d
  end.

(** *** POST /api/tasks (lines 76-83) *)

Definition create_task (now : datetime) (new_id : ObjectId) (payload : TaskCreate)
  : M handle dict :=
  try_except
    (let task := Task_new payload false in
     inserted_id <- create_document now new_id "task" task ;;
     ret (<["id" := VStr inserted_id]> ∅))
    (fun e => raise (HTTPException 500 (str_exn e))).

(** *** GET /api/tasks (lines 85-108) *)

Definition regex_i (q : string) : cond := CRegex q "i".

(** The filter document built on lines 88-95. *)
Definition list_filter (category q : option string) : filter_doc :=
  let filter_dict : filter_doc := [] in
  let filter_dict :=
    match category with
    | Some c => if truthy category
                then (filter_dict ++ [Field "category" (CEq (VStr c))])%list
                else filter_dict
    | None => filter_dict
    end in
  match q with
  | Some p => if truthy q
              then (filter_dict ++ [Or [[("title", regex_i p)]; [("description", regex_i p)]]])%list
              else filter_dict
  | None => filter_dict
  end.

Definition list_tasks (category q : option string) : M handle (list dict) :=
  try_except
    (let filter_dict := list_filter category q in
     docs <- get_documents "task" filter_dict ;;
     mapM (fun d => lift (normalize d)) docs)
    (fun e => raise (HTTPException 500 (str_exn e))).

(** *** PATCH /api/tasks/{task_id} (lines 110-135) *)

(** [except HTTPException: raise] followed by [except Exception as e]. *)
Definition reraise_http {A} (e : exn) : M handle A :=
  match e with
  | HTTPException _ _ => raise e
  | _ => raise (HTTPException 500 (str_exn e))
  end.

Definition update_data (now : datetime) (payload : TaskUpdate) : dict :=
  let data := filter (fun kv => snd kv ≠ VNone) (TaskUpdate_model_dump payload) in
  <["updated_at" := VDatetime now]> data.

Definition update_task (now : datetime) (task_id : string) (payload : TaskUpdate)
  : M handle dict :=
  try_except
    (db <- get ;;
     match db with
     | None => raise (Exception not_available)
     | Some _ =>
         let data := update_data now payload in
         o <- lift (ObjectId_new task_id) ;;
         result <- find_one_and_update o data ;;
         match result with
         | Some d =>
             if truthy_doc result then lift (normalize d)
             else raise (HTTPException 404 "Task not found")
         | None => raise (HTTPException 404 "Task not found")
         end
     end)
    reraise_http.

(** *** DELETE /api/tasks/{task_id} (lines 137-149) *)

Definition delete_task (task_id : string) : M handle dict :=
  try_except
    (db <- get ;;
     match db with
     | None => raise (Exception not_available)
     | Some _ =>
         o <- lift (ObjectId_new task_id) ;;
         deleted_count <- delete_one o ;;
         if decide (deleted_count = 0%nat)
         then raise (HTTPException 404 "Task not found")
         else ret (<["status" := VStr "ok"]> ∅)
     end)
    reraise_http.

(** ** Notions used to state the properties *)

(** The stored documents of the [task] collection. *)
Definition documents (D : Database) : list dict := to_dict <$> task D.

(** The identifiers of the stored documents, in order. *)
Definition ids (D : Database) : list ObjectId := fst <$> task D.

(** [q] occurs in [s] as a substring when case is ignored. *)
Definition contains_ci (q s : string) : Prop :=
  ∃ l r, lower_str s = l +:+ lower_str q +:+ r.

(** The field [k] of [d] is text in which [q] occurs, case ignored. *)
Definition field_contains_ci (q : string) (d : dict) (k : string) : Prop :=
  ∃ s, d !! k = Some (VStr s) ∧ contains_ci q s.

(** No character of [q] has a special meaning in a pattern. *)
Fixpoint plain_pattern (q : string) : bool :=
  match q with
  | EmptyString => true
  | String c r => negb (is_meta c) && plain_pattern r
  end.

(** The [category] parameter, when it filters, is the category of [d]. *)
Definition category_matches (category : option string) (d : dict) : Prop :=
  match category with
  | Some c => c = "" ∨ d !! "category" = Some (VStr c)
  | None => True
  end.

(** [s] follows [shape], where [d] in the shape stands for a digit. *)
Fixpoint fits (shape s : string) : bool :=
  match shape, s with
  | EmptyString, EmptyString => true
  | String p ps, String c cs =>
      (if Ascii.eqb p "d" then is_digit c else Ascii.eqb p c) && fits ps cs
  | _, _ => false
  end.

(** ISO-8601 text of a date and a time. *)
Definition is_iso8601 (s : string) : bool :=
  fits "dddd-dd-ddTdd:dd:dd" s || fits "dddd-dd-ddTdd:dd:dd.dddddd" s.

(** The value a payload supplies for the field [k], if any. *)
Definition supplied (p : TaskUpdate) (k : string) : option value :=
  if decide (k = "title") then VStr <$> title p
  else if decide (k = "description") then VStr <$> description p
  else if decide (k = "category") then VStr <$> category p
  else if decide (k = "due_date") then VDatetime <$> due_date p
  else if decide (k = "priority") then VStr <$> priority p
  else if decide (k = "completed") then VBool <$> completed p
  else None.

(** The literal items of a plain pattern. *)
Fixpoint lits (q : string) : list item :=
  match q with
  | EmptyString => []
  | String c r => Lit c :: lits r
  end.

(** A timestamp rendered as text, any other value left as it is. *)
Definition iso_value (v : value) : value :=
  match v with
  | VDatetime t => VStr (isoformat t)
  | _ => v
  end.

(** The document a handler returns for a stored one. *)
Definition rendered (d : dict) : dict :=
  match normalize d with
  | Return r => r
  | _ => d
  end.

(** What is stored behind a handle. *)
Definition tasks_of (w : handle) : list (ObjectId * dict) :=
  match w with
  | Some D => task D
  | None => []
  end.

(** The stored documents behind a handle, as a query returns them. *)
Definition stored (w : handle) : list dict := to_dict <$> tasks_of w.

(** The member of a request body that carries the field [k]. *)
Definition member_of (b : TaskUpdateBody) (k : string) : member value :=
  let conv {A} (f : A -> value) (m : member A) : member value :=
    match m with
    | Omitted => Omitted
    | Null => Null
    | Given a => Given (f a)
    end in
  if decide (k = "title") then conv VStr (b_title b)
  else if decide (k = "description") then conv VStr (b_description b)
  else if decide (k = "category") then conv VStr (b_category b)
  else if decide (k = "due_date") then conv VDatetime (b_due_date b)
  else if decide (k = "priority") then conv VStr (b_priority b)
  else if decide (k = "completed") then conv VBool (b_completed b)
  else Omitted.

(** The same body with every [null] member left out. *)
Definition drop_null {A} (m : member A) : member A :=
  match m with
  | Null => Omitted
  | _ => m
  end.

Definition nulls_as_omitted (b : TaskUpdateBody) : TaskUpdateBody :=
  mkTaskUpdateBody (drop_null (b_title b)) (drop_null (b_description b))
    (drop_null (b_category b)) (drop_null (b_due_date b))
    (drop_null (b_priority b)) (drop_null (b_completed b)).

(** [r] is the stored document [d] as a client sees it: the identifier as
    text under [id], no [_id], and the three timestamps as ISO-8601 text. *)
Definition rendering_of (d r : dict) : Prop :=
  ∃ o, d !! "_id" = Some (VObjectId o) ∧
       r !! "_id" = None ∧
       r !! "id" = Some (VStr (str_ObjectId o)) ∧
       ∀ k t, k ∈ ["created_at"; "updated_at"; "due_date"] →
              d !! k = Some (VDatetime t) →
              r !! k = Some (VStr (isoformat t)) ∧ is_iso8601 (isoformat t) = true.

(** ** Sample data *)

Definition oid_a : ObjectId := mkObjectId "abcdefghijkl".
Definition oid_b : ObjectId := mkObjectId "mnopqrstuvwx".
Definition noon : datetime := mkDatetime 2024 1 2 12 0 0 0.
Definition later : datetime := mkDatetime 2024 3 4 5 6 7 8.

Definition task_x : dict := <["title" := VStr "x"]> ∅.

Definition task_milk : dict :=
  <["title" := VStr "Buy Milk"]>
  (<["description" := VStr "two litres"]>
  (<["category" := VStr "home"]>
  (<["completed" := VBool false]>
  (<["created_at" := VDatetime noon]>
  (<["updated_at" := VDatetime noon]> ∅))))).

Definition db_x : Database := mkDatabase (Some "todo") None ["task"] [(oid_a, task_x)].
Definition db_milk : Database :=
  mkDatabase (Some "todo") None ["task"] [(oid_a, task_milk); (oid_b, task_x)].

(** * Properties *)

Ltac run := unfold try_except, bind, get, lift, raise, ret, reraise_http.

(** ** Text *)

Lemma append_cons (c : ascii) (s t : string) :
  String c s +:+ t = String c (s +:+ t).
Proof. reflexivity. Qed.

Lemma append_nil_l (t : string) : "" +:+ t = t.
Proof. reflexivity. Qed.

Lemma plain_compile (q : string) :
  plain_pattern q = true → regex_compile q = Some (lits q).
Proof.
  induction q as [|c q IH]; simpl; [done |].
  intros [Hc Hq]%andb_prop.
  apply negb_true_iff in Hc.
  destruct (decide (c = backslash)) as [->|_]; [by vm_compute in Hc |].
  destruct (decide (c = "."%char)) as [->|_]; [by vm_compute in Hc |].
  by rewrite Hc, (IH Hq).
Qed.

Lemma match_here_lits (q s : string) :
  match_here true (lits q) s = true ↔ ∃ r, lower_str s = lower_str q +:+ r.
Proof.
  revert s. induction q as [|c q IH]; intros s; simpl.
  - split; [eauto | done].
  - destruct s as [|a s]; simpl.
    + split; [done | by intros [r Hr]].
    + rewrite andb_true_iff, bool_decide_eq_true, IH. split.
      * intros [-> [r ->]]. by exists r.
      * intros [r Hr]. rewrite append_cons in Hr. injection Hr as -> ->. eauto.
Qed.

Lemma regex_search_lits (q s : string) :
  regex_search true (lits q) s = true ↔ contains_ci q s.
Proof.
  unfold contains_ci. induction s as [|a s IH].
  - simpl. rewrite orb_false_r, match_here_lits. split.
    + intros [r Hr]. by exists "", r.
    + intros (l & r & Hr). destruct l; [by exists r | done].
  - cbn [regex_search]. rewrite orb_true_iff, match_here_lits, IH. split.
    + intros [[r Hr]|(l & r & Hr)].
      * by exists "", r.
      * exists (String (lower a) l), r. simpl. by rewrite Hr.
    + intros (l & r & Hr). destruct l as [|b l].
      * left. by exists r.
      * right. simpl in Hr. rewrite append_cons in Hr. injection Hr as _ Hr. by exists l, r.
Qed.

(** ** Rendering *)

Lemma iso_field_lookup (k j : string) (d : dict) :
  iso_field k d !! j = if decide (j = k) then iso_value <$> d !! k else d !! j.
Proof.
  unfold iso_field. destruct (decide (j = k)) as [->|Hne].
  - destruct (d !! k) as [[]|] eqn:E; simpl; rewrite ?lookup_insert_eq, ?E; done.
  - destruct (d !! k) as [[]|]; rewrite ?lookup_insert_ne; done.
Qed.

Lemma to_dict_id (t : ObjectId * dict) :
  to_dict t !! "_id" = Some (VObjectId (fst t)).
Proof. apply lookup_insert_eq. Qed.

Lemma to_dict_lookup (t : ObjectId * dict) (k : string) :
  k ≠ "_id" → to_dict t !! k = snd t !! k.
Proof. intros. unfold to_dict. by rewrite lookup_insert_ne. Qed.

Lemma normalize_with_id (d : dict) (v : value) :
  d !! "_id" = Some v → normalize d = Return (rendered d).
Proof. intros H. unfold rendered, normalize. by rewrite H. Qed.

Lemma rendered_lookup (d : dict) (o : ObjectId) (j : string) :
  d !! "_id" = Some (VObjectId o) →
  rendered d !! j =
    if decide (j = "_id") then None
    else if decide (j = "id") then Some (VStr (str_ObjectId o))
    else if decide (j = "created_at" ∨ j = "updated_at" ∨ j = "due_date")
         then iso_value <$> d !! j
         else d !! j.
Proof.
  intros H. unfold rendered, normalize. rewrite H. simpl.
  rewrite !iso_field_lookup.
  repeat (destruct (decide _) as [?|?]); simplify_eq; try done;
    rewrite ?lookup_insert_eq, ?lookup_insert_ne, ?lookup_delete_eq, ?lookup_delete_ne by done;
    try done; try tauto.
Qed.

(** ** Running the handlers *)

Lemma mapM_normalize_sub (sel : list dict) (l : list (ObjectId * dict)) (w : handle) :
  sel ⊆ to_dict <$> l →
  mapM (fun d => lift (normalize d)) sel w = (w, Return (rendered <$> sel)).
Proof.
  induction sel as [|d sel IH]; intros Hsub; [done |].
  assert (d ∈ to_dict <$> l) as (t & -> & _)%list_elem_of_fmap by set_solver.
  cbn [mapM fmap list_fmap]. unfold bind at 1, lift at 1.
  rewrite (normalize_with_id _ _ (to_dict_id t)).
  unfold bind at 1. rewrite IH; [done | set_solver].
Qed.

Lemma list_tasks_run (D : Database) (category q : option string) :
  fault D = None →
  forallb clause_supported (list_filter category q) = true →
  list_tasks category q (Some D)
  = (Some D, Return (rendered <$> filter (fun d => eval_filter (list_filter category q) d) (documents D))).
Proof.
  intros Hf Hs. unfold list_tasks, try_except, get_documents, bind at 1, get.
  unfold bind at 1. simpl. unfold find, server_call. rewrite Hf, Hs.
  rewrite (mapM_normalize_sub _ (task D)); [done |].
  intros d [_ Hd]%list_elem_of_filter. exact Hd.
Qed.

(** Only a fault-free database answers a list request. *)
Lemma list_tasks_returns (w w' : handle) (category q : option string) (docs : list dict) :
  list_tasks category q w = (w', Return docs) →
  ∃ D, w = Some D ∧ w' = Some D ∧
       docs = rendered <$> filter (fun d => eval_filter (list_filter category q) d) (documents D).
Proof.
  intros H. destruct w as [D|]; [| by vm_compute in H].
  exists D.
  destruct (fault D) as [msg|] eqn:Hf.
  { unfold list_tasks, try_except, get_documents, bind, get, find, server_call in H.
    simpl in H. by rewrite Hf in H. }
  destruct (forallb clause_supported (list_filter category q)) eqn:Hs.
  - rewrite (list_tasks_run D category q Hf Hs) in H. by simplify_eq.
  - unfold list_tasks, try_except, get_documents, bind, get, find, server_call in H.
    simpl in H. by rewrite Hf, Hs in H.
Qed.

(** ** Listing *)

Lemma is_digit_digit (n : nat) : is_digit (digit n) = true.
Proof.
  unfold is_digit, in_range, digit, code.
  assert (n mod 10 < 10)%nat by (apply Nat.mod_upper_bound; lia).
  rewrite nat_ascii_embedding by lia.
  apply andb_true_intro; split; apply Nat.leb_le; lia.
Qed.

Lemma isoformat_is_iso8601 (t : datetime) : is_iso8601 (isoformat t) = true.
Proof.
  unfold is_iso8601, isoformat, isoformat_sep, pad6, pad4, pad2.
  destruct (decide (microsecond t = 0%nat)) as [_|_];
    repeat (rewrite ?append_cons, ?append_nil_l);
    cbn [fits Ascii.eqb Bool.eqb andb]; rewrite !is_digit_digit; reflexivity.
Qed.

Lemma eval_regex_plain (q : string) (d : dict) (k : string) :
  plain_pattern q = true →
  eval_cond d k (regex_i q) = true ↔ field_contains_ci q d k.
Proof.
  intros Hq. unfold eval_cond, regex_i, field_contains_ci.
  rewrite (plain_compile q Hq). change (regex_options "i") with (Some true).
  destruct (d !! k) as [[| |s| |]|].
  all: try (split; [done | by intros (s' & ? & _)]).
  rewrite regex_search_lits. split.
  - intros H. by exists s.
  - intros (s' & [= <-] & H). done.
Qed.

Lemma eval_category (c : string) (d : dict) :
  eval_cond d "category" (CEq (VStr c)) = true ↔ d !! "category" = Some (VStr c).
Proof. simpl. apply bool_decide_eq_true. Qed.

Lemma list_filter_plain_supported (category : option string) (q : string) :
  plain_pattern q = true →
  forallb clause_supported (list_filter category (Some q)) = true.
Proof.
  intros Hq.
  assert (cond_supported (regex_i q) = true) as Hr.
  { unfold cond_supported, regex_i. rewrite (plain_compile q Hq). done. }
  unfold list_filter, truthy.
  destruct category as [c|]; repeat destruct (negb _);
    cbn [forallb app clause_supported fst snd]; rewrite ?Hr; done.
Qed.

Lemma eval_list_filter_plain (category : option string) (q : string) (d : dict) :
  q ≠ "" → plain_pattern q = true →
  eval_filter (list_filter category (Some q)) d = true ↔
    category_matches category d ∧
    (field_contains_ci q d "title" ∨ field_contains_ci q d "description").
Proof.
  intros Hne Hq.
  assert (truthy (Some q) = true) as Ht.
  { simpl. by rewrite bool_decide_eq_false_2. }
  pose proof (eval_regex_plain q d "title" Hq) as Htitle.
  pose proof (eval_regex_plain q d "description" Hq) as Hdesc.
  unfold list_filter, eval_filter. rewrite Ht.
  destruct category as [c|]; [destruct (decide (c = "")) as [->|Hc] |].
  - cbn [truthy forallb eval_clause existsb fst snd app].
    change (bool_decide ("" = "")) with true. cbn [negb forallb eval_clause existsb fst snd app].
    rewrite !andb_true_r, orb_false_r, orb_true_iff, Htitle, Hdesc.
    unfold category_matches. intuition auto.
  - cbn [truthy]. rewrite bool_decide_eq_false_2 by done.
    cbn [negb forallb eval_clause existsb fst snd app].
    rewrite !andb_true_r, orb_false_r, andb_true_iff, orb_true_iff, Htitle, Hdesc.
    rewrite eval_category. unfold category_matches. intuition auto.
  - cbn [forallb eval_clause existsb fst snd app].
    rewrite !andb_true_r, orb_false_r, orb_true_iff, Htitle, Hdesc.
    unfold category_matches. intuition auto.
Qed.

Lemma filter_all (flt : list dict) :
  filter (fun d => eval_filter [] d) flt = flt.
Proof.
  induction flt as [|d l IH]; [done |].
  rewrite filter_cons_True by done. by rewrite IH.
Qed.

(** C1, as amended.  When [q] is present, is not empty and holds no
    character with a special meaning in a pattern, the list operation
    succeeds on a reachable store and returns the rendering of exactly those
    stored documents that pass the category filter (when one is given) and
    whose title or description contains [q] as a substring, case ignored.
    The documents come in the order of the store, each at most once. *)
Theorem list_tasks_plain_query (D : Database) (category : option string) (q : string) :
  fault D = None → q ≠ "" → plain_pattern q = true →
  ∃ sel,
    list_tasks category (Some q) (Some D) = (Some D, Return (rendered <$> sel)) ∧
    sublist sel (documents D) ∧
    ∀ d, d ∈ sel ↔
         d ∈ documents D ∧ category_matches category d ∧
         (field_contains_ci q d "title" ∨ field_contains_ci q d "description").
Proof.
  intros Hf Hne Hq.
  exists (filter (fun d => eval_filter (list_filter category (Some q)) d) (documents D)).
  split; [| split].
  - apply list_tasks_run; [done |]. by apply list_filter_plain_supported.
  - apply sublist_filter.
  - intros d. rewrite list_elem_of_filter, Is_true_true, eval_list_filter_plain by done.
    tauto.
Qed.

Lemma list_tasks_plain_query_witness :
  ∃ sel,
    list_tasks None (Some "milk") (Some db_milk) = (Some db_milk, Return (rendered <$> sel)) ∧
    sublist sel (documents db_milk) ∧
    ∀ d, d ∈ sel ↔
         d ∈ documents db_milk ∧ category_matches None d ∧
         (field_contains_ci "milk" d "title" ∨ field_contains_ci "milk" d "description").
Proof.
  apply (list_tasks_plain_query db_milk None "milk"); [reflexivity | discriminate | reflexivity].
Defined.

(** C1, the claim as written fails: with [q = "."] the stored task titled
    [x] is returned, though neither its title nor its description contains a
    dot.  The query text is a pattern, and the dot matches any character. *)
Lemma list_tasks_dot_counterexample :
  list_tasks None (Some ".") (Some db_x)
    = (Some db_x, Return [rendered (to_dict (oid_a, task_x))]) ∧
  to_dict (oid_a, task_x) ∈ documents db_x ∧
  ¬ (field_contains_ci "." (to_dict (oid_a, task_x)) "title" ∨
     field_contains_ci "." (to_dict (oid_a, task_x)) "description").
Proof.
  split; [by vm_compute | split; [by left |]].
  intros [(s & Hs & l & r & H)|(s & Hs & _)].
  - vm_compute in Hs. injection Hs as <-.
    destruct l as [|a [|b l]]; by vm_compute in H.
  - by vm_compute in Hs.
Qed.

(** C10.  A [category] or a [q] given as the empty text is handled as if it
    were absent, whatever the state of the store; so on a reachable store a
    request with the empty category returns every stored task. *)
Theorem list_tasks_empty_parameter (category q : option string) (w : handle) :
  list_tasks (Some "") q w = list_tasks None q w ∧
  list_tasks category (Some "") w = list_tasks category None w ∧
  ∀ D, w = Some D → fault D = None →
       list_tasks (Some "") None w = (w, Return (rendered <$> documents D)).
Proof.
  split; [done | split].
  - by destruct category.
  - intros D -> Hf. rewrite (list_tasks_run D (Some "") None Hf) by done.
    change (list_filter (Some "") None) with (@nil clause). by rewrite filter_all.
Qed.

Lemma list_tasks_empty_parameter_witness :
  list_tasks (Some "") (Some "milk") (Some db_milk) = list_tasks None (Some "milk") (Some db_milk) ∧
  list_tasks (Some "home") (Some "") (Some db_milk) = list_tasks (Some "home") None (Some db_milk) ∧
  list_tasks (Some "") None (Some db_milk) = (Some db_milk, Return (rendered <$> documents db_milk)).
Proof.
  destruct (list_tasks_empty_parameter (Some "home") (Some "milk") (Some db_milk))
    as (H1 & _ & H3).
  destruct (list_tasks_empty_parameter (Some "home") (Some "") (Some db_milk))
    as (_ & H2 & _).
  split; [exact H1 | split; [exact H2 | exact (H3 db_milk eq_refl eq_refl)]].
Defined.

(** ** Updating and deleting *)

Lemma update_data_lookup (now : datetime) (p : TaskUpdate) (k : string) :
  update_data now p !! k =
    if decide (k = "updated_at") then Some (VDatetime now) else supplied p k.
Proof.
  unfold update_data, supplied, TaskUpdate_model_dump.
  destruct p as [t d c dd pr co]; simpl.
  rewrite lookup_insert.
  destruct (decide ("updated_at" = k)) as [<-|Hk]; [done |].
  rewrite decide_False by done.
  rewrite map_lookup_filter.
  repeat (destruct (decide (k = _)) as [->|?];
    [ rewrite ?lookup_insert_ne by done; rewrite lookup_insert_eq; simpl;
      match goal with |- context [opt_value _ ?o] => destruct o end; simpl;
      by rewrite ?option_guard_True, ?option_guard_False by (try done; intros ?; done) |]).
  rewrite !lookup_insert_ne by done. by rewrite lookup_empty.
Qed.

Lemma update_data_no_id (now : datetime) (p : TaskUpdate) :
  update_data now p !! "_id" = None.
Proof. by rewrite update_data_lookup. Qed.

Lemma bson_doc_lookup (d : dict) (k : string) :
  bson_doc d !! k = bson_value <$> d !! k.
Proof. apply lookup_fmap. Qed.

Lemma stored_update_lookup (now : datetime) (p : TaskUpdate) (k : string) :
  bson_doc (update_data now p) !! k =
    if decide (k = "updated_at") then Some (VDatetime (to_millis now))
    else bson_value <$> supplied p k.
Proof. rewrite bson_doc_lookup, update_data_lookup. by case_decide. Qed.

Lemma set_task_same (D : Database) : set_task (task D) D = D.
Proof. by destruct D. Qed.

Lemma update_first_cases (o : ObjectId) (data : dict) (l : list (ObjectId * dict)) :
  data !! "_id" = None →
  ((o ∉ fst <$> l) ∧ update_first o data l = Return (None, l)) ∨
  (∃ pre f post,
     l = pre ++ (o, f) :: post ∧ (o ∉ fst <$> pre) ∧
     update_first o data l
     = Return (Some (to_dict (o, bson_doc data ∪ f)), pre ++ (o, bson_doc data ∪ f) :: post)).
Proof.
  intros Hd. induction l as [|[o' f] l IH].
  - left. split; [apply not_elem_of_nil | done].
  - simpl. destruct (decide (o' = o)) as [->|Hne].
    + right. exists [], f, l. unfold apply_set. rewrite Hd. simpl.
      split; [done | split; [apply not_elem_of_nil | done]].
    + destruct IH as [[Hn ->]|(pre & g & post & -> & Hn & ->)].
      * left. split; [| done]. rewrite not_elem_of_cons. done.
      * right. exists ((o', f) :: pre), g, post.
        split; [done | split; [| done]]. simpl. rewrite not_elem_of_cons. done.
Qed.

Lemma update_first_missing (o : ObjectId) (data : dict) (l : list (ObjectId * dict)) :
  o ∉ fst <$> l → update_first o data l = Return (None, l).
Proof.
  induction l as [|[o' f] l IH]; [done |].
  simpl. rewrite not_elem_of_cons. intros [Hne Hl].
  rewrite decide_False by done. by rewrite IH.
Qed.

Lemma update_first_found (o : ObjectId) (data f : dict) (pre post : list (ObjectId * dict)) :
  data !! "_id" = None → o ∉ fst <$> pre →
  update_first o data (pre ++ (o, f) :: post)
  = Return (Some (to_dict (o, bson_doc data ∪ f)), pre ++ (o, bson_doc data ∪ f) :: post).
Proof.
  intros Hd. induction pre as [|[o' g] pre IH]; simpl.
  - intros _. rewrite decide_True by done. unfold apply_set. by rewrite Hd.
  - rewrite not_elem_of_cons. intros [Hne Hl].
    rewrite decide_False by done. by rewrite IH.
Qed.

Lemma update_first_ids (o : ObjectId) (data : dict) (l l' : list (ObjectId * dict)) res :
  update_first o data l = Return (res, l') → fst <$> l' = fst <$> l.
Proof.
  revert l' res. induction l as [|[o' f] l IH]; intros l' res; simpl.
  - by intros [= <- <-].
  - destruct (decide (o' = o)) as [->|Hne].
    + unfold apply_set. simpl. destruct (data !! "_id") as [v|].
      * destruct (decide (v = VObjectId o)); [| done]. by intros [= <- <-].
      * by intros [= <- <-].
    + destruct (update_first o data l) as [[res' r']| |] eqn:E; [| done | done].
      intros [= <- <-]. rewrite !fmap_cons. f_equal. by apply (IH _ res').
Qed.

Lemma remove_first_cases (o : ObjectId) (l : list (ObjectId * dict)) :
  ((o ∉ fst <$> l) ∧ remove_first o l = (0%nat, l)) ∨
  (∃ pre f post,
     l = pre ++ (o, f) :: post ∧ (o ∉ fst <$> pre) ∧ remove_first o l = (1%nat, pre ++ post)).
Proof.
  induction l as [|[o' f] l IH].
  - left. split; [apply not_elem_of_nil | done].
  - simpl. destruct (decide (o' = o)) as [->|Hne].
    + right. exists [], f, l. split; [done | split; [apply not_elem_of_nil | done]].
    + destruct IH as [[Hn ->]|(pre & g & post & -> & Hn & ->)].
      * left. split; [| done]. rewrite not_elem_of_cons. done.
      * right. exists ((o', f) :: pre), g, post.
        split; [done | split; [| done]]. simpl. rewrite not_elem_of_cons. done.
Qed.

Lemma to_dict_truthy (t : ObjectId * dict) : truthy_doc (Some (to_dict t)) = true.
Proof.
  simpl. apply negb_true_iff, bool_decide_eq_false_2. apply insert_non_empty.
Qed.

Lemma ObjectId_new_modelled (s : string) : ObjectId_new s ≠ Unmodelled.
Proof. unfold ObjectId_new. case_decide; [destruct (fromhex s) |]; done. Qed.

Lemma update_task_no_db (now : datetime) (task_id : string) (p : TaskUpdate) :
  update_task now task_id p None = (None, Raise (HTTPException 500 not_available)).
Proof. reflexivity. Qed.

Lemma update_task_bad_id (D : Database) (now : datetime) (task_id : string)
    (p : TaskUpdate) (e : exn) :
  ObjectId_new task_id = Raise e →
  update_task now task_id p (Some D)
  = (Some D, Raise (HTTPException 500 (invalid_id_message task_id))).
Proof.
  intros H. unfold update_task. run. simpl. rewrite H.
  unfold ObjectId_new in H. case_decide; [destruct (fromhex task_id) |]; by simplify_eq.
Qed.

Lemma update_task_fault (D : Database) (now : datetime) (task_id : string)
    (p : TaskUpdate) (o : ObjectId) (msg : string) :
  ObjectId_new task_id = Return o → fault D = Some msg →
  update_task now task_id p (Some D) = (Some D, Raise (HTTPException 500 msg)).
Proof.
  intros H Hf. unfold update_task. run. simpl. rewrite H.
  unfold find_one_and_update, server_call. by rewrite Hf.
Qed.

Lemma update_task_missing (D : Database) (now : datetime) (task_id : string)
    (p : TaskUpdate) (o : ObjectId) :
  ObjectId_new task_id = Return o → fault D = None → o ∉ ids D →
  update_task now task_id p (Some D)
  = (Some D, Raise (HTTPException 404 "Task not found")).
Proof.
  intros H Hf Hn. unfold update_task. run. simpl. rewrite H.
  unfold find_one_and_update, server_call. rewrite Hf.
  rewrite (update_first_missing _ _ _ Hn). by rewrite set_task_same.
Qed.

Lemma update_task_found (D : Database) (now : datetime) (task_id : string)
    (p : TaskUpdate) (o : ObjectId) (f : dict) (pre post : list (ObjectId * dict)) :
  ObjectId_new task_id = Return o → fault D = None →
  task D = pre ++ (o, f) :: post → o ∉ fst <$> pre →
  update_task now task_id p (Some D)
  = (Some (set_task (pre ++ (o, bson_doc (update_data now p) ∪ f) :: post) D),
     Return (rendered (to_dict (o, bson_doc (update_data now p) ∪ f)))).
Proof.
  intros H Hf Ht Hn. unfold update_task. run. simpl. rewrite H.
  unfold find_one_and_update, server_call. rewrite Hf, Ht.
  rewrite (update_first_found _ _ _ _ _ (update_data_no_id now p) Hn).
  rewrite to_dict_truthy.
  by rewrite (normalize_with_id _ _ (to_dict_id _)).
Qed.

Lemma delete_task_no_db (task_id : string) :
  delete_task task_id None = (None, Raise (HTTPException 500 not_available)).
Proof. reflexivity. Qed.

Lemma delete_task_bad_id (D : Database) (task_id : string) (e : exn) :
  ObjectId_new task_id = Raise e →
  delete_task task_id (Some D)
  = (Some D, Raise (HTTPException 500 (invalid_id_message task_id))).
Proof.
  intros H. unfold delete_task. run. simpl. rewrite H.
  unfold ObjectId_new in H. case_decide; [destruct (fromhex task_id) |]; by simplify_eq.
Qed.

Lemma delete_task_fault (D : Database) (task_id : string) (o : ObjectId) (msg : string) :
  ObjectId_new task_id = Return o → fault D = Some msg →
  delete_task task_id (Some D) = (Some D, Raise (HTTPException 500 msg)).
Proof.
  intros H Hf. unfold delete_task. run. simpl. rewrite H.
  unfold delete_one, server_call. by rewrite Hf.
Qed.

Lemma delete_task_missing (D : Database) (task_id : string) (o : ObjectId) :
  ObjectId_new task_id = Return o → fault D = None → o ∉ ids D →
  delete_task task_id (Some D) = (Some D, Raise (HTTPException 404 "Task not found")).
Proof.
  intros H Hf Hn. unfold delete_task. run. simpl. rewrite H.
  unfold delete_one, server_call. rewrite Hf.
  destruct (remove_first_cases o (task D)) as [[_ ->]|(pre & f & post & Ht & _ & _)].
  - simpl. by rewrite set_task_same.
  - exfalso. apply Hn. unfold ids. rewrite Ht, fmap_app, fmap_cons.
    apply elem_of_app. right. by left.
Qed.

Lemma delete_task_found (D : Database) (task_id : string) (o : ObjectId)
    (f : dict) (pre post : list (ObjectId * dict)) :
  ObjectId_new task_id = Return o → fault D = None →
  task D = pre ++ (o, f) :: post → o ∉ fst <$> pre →
  delete_task task_id (Some D)
  = (Some (set_task (pre ++ post) D), Return (<["status" := VStr "ok"]> ∅)).
Proof.
  intros H Hf Ht Hn. unfold delete_task. run. simpl. rewrite H.
  unfold delete_one, server_call. rewrite Hf.
  destruct (remove_first_cases o (task D)) as [[Hm _]|(pre' & f' & post' & Ht' & Hn' & ->)].
  - exfalso. apply Hm. rewrite Ht, fmap_app, fmap_cons.
    apply elem_of_app. right. by left.
  - assert (pre' = pre ∧ post' = post) as [-> ->]; [| done].
    rewrite Ht in Ht'. clear -Ht' Hn Hn'.
    revert pre' Ht' Hn'. induction pre as [|[a g] pre IH]; intros [|[a' g'] pre'] E Hn'.
    + by simplify_eq.
    + simplify_eq. exfalso. apply Hn'. by left.
    + simplify_eq. exfalso. apply Hn. by left.
    + simpl in *. injection E as -> -> E.
      rewrite not_elem_of_cons in Hn, Hn'.
      destruct (IH (proj2 Hn) pre' E (proj2 Hn')) as [-> ->]. done.
Qed.

(** Every request with a path identifier falls in one of four cases. *)
Lemma ObjectId_new_cases (s : string) :
  ObjectId_new s = Raise (InvalidId s) ∨ ∃ o, ObjectId_new s = Return o.
Proof.
  unfold ObjectId_new. case_decide; [destruct (fromhex s) |]; eauto.
Qed.

(** C2.  An update of an existing task on a reachable store succeeds; in the
    stored document every field the payload supplies takes the supplied
    value, [updated_at] takes the current time whatever the payload holds,
    every other field keeps its value, and the other documents of the store
    are untouched.  The store keeps a datetime to the millisecond, so the
    current time and a supplied due date are stored without the microseconds
    below a millisecond. *)
Theorem update_task_changes_supplied_fields (D : Database) (now : datetime)
    (task_id : string) (p : TaskUpdate) (o : ObjectId) (f : dict)
    (pre post : list (ObjectId * dict)) :
  fault D = None → ObjectId_new task_id = Return o →
  task D = pre ++ (o, f) :: post → o ∉ fst <$> pre →
  ∃ f',
    update_task now task_id p (Some D)
    = (Some (set_task (pre ++ (o, f') :: post) D), Return (rendered (to_dict (o, f')))) ∧
    f' !! "updated_at" = Some (VDatetime (to_millis now)) ∧
    (∀ k v, supplied p k = Some v → f' !! k = Some (bson_value v)) ∧
    (∀ k, supplied p k = None → k ≠ "updated_at" → f' !! k = f !! k).
Proof.
  intros Hf Hid Ht Hn. exists (bson_doc (update_data now p) ∪ f).
  split; [by apply update_task_found | split; [| split]].
  - apply lookup_union_Some_l. by rewrite stored_update_lookup.
  - intros k v Hk. apply lookup_union_Some_l. rewrite stored_update_lookup.
    case_decide as Hu; [| by rewrite Hk]. subst k. by vm_compute in Hk.
  - intros k Hk Hne. apply lookup_union_r. rewrite stored_update_lookup.
    rewrite decide_False by done. by rewrite Hk.
Qed.

Lemma update_task_changes_supplied_fields_witness :
  ∃ f',
    update_task later "6162636465666768696a6b6c"
      (mkTaskUpdate None None None None None (Some true)) (Some db_milk)
    = (Some (set_task ([] ++ (oid_a, f') :: [(oid_b, task_x)]) db_milk),
       Return (rendered (to_dict (oid_a, f')))) ∧
    f' !! "updated_at" = Some (VDatetime (to_millis later)) ∧
    (∀ k v, supplied (mkTaskUpdate None None None None None (Some true)) k = Some v →
            f' !! k = Some (bson_value v)) ∧
    (∀ k, supplied (mkTaskUpdate None None None None None (Some true)) k = None →
          k ≠ "updated_at" → f' !! k = task_milk !! k).
Proof.
  apply (update_task_changes_supplied_fields db_milk later "6162636465666768696a6b6c"
           (mkTaskUpdate None None None None None (Some true)) oid_a task_milk
           [] [(oid_b, task_x)]);
    [reflexivity | reflexivity | reflexivity | apply not_elem_of_nil].
Defined.

(** C3.  On a reachable store, an update or a delete whose identifier is
    well formed and is the [_id] of no stored document raises the 404 error
    and leaves the store as it was. *)
Theorem unknown_identifier_not_found (D : Database) (now : datetime)
    (task_id : string) (p : TaskUpdate) (o : ObjectId) :
  fault D = None → ObjectId_new task_id = Return o → o ∉ ids D →
  update_task now task_id p (Some D)
    = (Some D, Raise (HTTPException 404 "Task not found")) ∧
  delete_task task_id (Some D)
    = (Some D, Raise (HTTPException 404 "Task not found")).
Proof.
  intros Hf Hid Hn. split.
  - by apply (update_task_missing D now task_id p o).
  - by apply (delete_task_missing D task_id o).
Qed.

Lemma unknown_identifier_not_found_witness :
  update_task later "000000000000000000000000"
    (mkTaskUpdate (Some "t") None None None None None) (Some db_milk)
    = (Some db_milk, Raise (HTTPException 404 "Task not found")) ∧
  delete_task "000000000000000000000000" (Some db_milk)
    = (Some db_milk, Raise (HTTPException 404 "Task not found")).
Proof.
  apply (unknown_identifier_not_found db_milk later "000000000000000000000000"
           (mkTaskUpdate (Some "t") None None None None None)
           (mkObjectId (String.string_of_list_ascii (replicate 12 zero))));
    [reflexivity | reflexivity |].
  unfold ids. simpl. rewrite !not_elem_of_cons. repeat split; try discriminate.
  apply not_elem_of_nil.
Defined.

(** A task that was deleted is not found by a second delete. *)
Lemma delete_task_twice (D : Database) (task_id : string) (o : ObjectId) :
  fault D = None → ObjectId_new task_id = Return o → NoDup (ids D) → o ∈ ids D →
  ∃ D',
    delete_task task_id (Some D) = (Some D', Return (<["status" := VStr "ok"]> ∅)) ∧
    delete_task task_id (Some D') = (Some D', Raise (HTTPException 404 "Task not found")).
Proof.
  intros Hf Hid Hnd Hin.
  destruct (remove_first_cases o (task D)) as [[Hm _]|(pre & f & post & Ht & Hn & _)];
    [done |].
  exists (set_task (pre ++ post) D). split.
  - by apply (delete_task_found D task_id o f pre post).
  - apply (delete_task_missing _ task_id o); [done | done |].
    unfold ids in *. simpl. rewrite Ht in Hnd.
    rewrite fmap_app, fmap_cons in Hnd. apply NoDup_app in Hnd as (_ & Hd & Hp).
    apply NoDup_cons in Hp as [Hp _].
    rewrite fmap_app, not_elem_of_app. done.
Qed.



(** ** Creating *)

Lemma new_document_lookup (now : datetime) (t : Task) (k : string) :
  k ≠ "updated_at" → k ≠ "created_at" →
  new_document now t !! k = Task_model_dump t !! k.
Proof. intros. unfold new_document. by rewrite !lookup_insert_ne. Qed.

Lemma new_document_no_id (now : datetime) (t : Task) :
  new_document now t !! "_id" = None.
Proof. by rewrite new_document_lookup. Qed.

Lemma create_task_no_db (now : datetime) (new_id : ObjectId) (c : TaskCreate) :
  create_task now new_id c None = (None, Raise (HTTPException 500 not_available)).
Proof. reflexivity. Qed.

Lemma create_task_fault (D : Database) (now : datetime) (new_id : ObjectId)
    (c : TaskCreate) (msg : string) :
  fault D = Some msg →
  create_task now new_id c (Some D) = (Some D, Raise (HTTPException 500 msg)).
Proof.
  intros Hf. unfold create_task, create_document, insert_one, server_call. run.
  simpl. by rewrite Hf.
Qed.

Lemma create_task_success (D : Database) (now : datetime) (new_id : ObjectId)
    (c : TaskCreate) :
  fault D = None →
  create_task now new_id c (Some D)
  = (Some (set_task (task D ++ [(new_id, bson_doc (new_document now (Task_new c false)))]) D),
     Return (<["id" := VStr (str_ObjectId new_id)]> ∅)).
Proof.
  intros Hf. unfold create_task, create_document, insert_one, server_call. run.
  simpl. by rewrite Hf, new_document_no_id.
Qed.

(** C8.  The [$set] document of an update never holds [_id]; an update
    leaves the identifiers of the stored documents as they were, in place; a
    delete leaves the remaining documents as they were; a create leaves the
    existing documents as they were. *)
Theorem identifier_immutable (now : datetime) (new_id : ObjectId) (task_id : string)
    (p : TaskUpdate) (c : TaskCreate) (w : handle) :
  update_data now p !! "_id" = None ∧
  fst <$> tasks_of (fst (update_task now task_id p w)) = fst <$> tasks_of w ∧
  sublist (tasks_of (fst (delete_task task_id w))) (tasks_of w) ∧
  tasks_of w `prefix_of` tasks_of (fst (create_task now new_id c w)).
Proof.
  split; [apply update_data_no_id | split; [| split]].
  - destruct w as [D|]; [| done].
    destruct (ObjectId_new_cases task_id) as [H|[o H]].
    { by rewrite (update_task_bad_id D now task_id p _ H). }
    destruct (fault D) as [msg|] eqn:Hf.
    { by rewrite (update_task_fault D now task_id p o msg H Hf). }
    destruct (update_first_cases o (update_data now p) (task D) (update_data_no_id now p))
      as [[Hm _]|(pre & f & post & Ht & Hn & _)].
    + by rewrite (update_task_missing D now task_id p o H Hf Hm).
    + rewrite (update_task_found D now task_id p o f pre post H Hf Ht Hn).
      simpl. rewrite Ht. by rewrite !fmap_app, !fmap_cons.
  - destruct w as [D|]; [| done].
    destruct (ObjectId_new_cases task_id) as [H|[o H]].
    { by rewrite (delete_task_bad_id D task_id _ H). }
    destruct (fault D) as [msg|] eqn:Hf.
    { by rewrite (delete_task_fault D task_id o msg H Hf). }
    destruct (remove_first_cases o (task D)) as [[Hm _]|(pre & f & post & Ht & Hn & _)].
    + by rewrite (delete_task_missing D task_id o H Hf Hm).
    + rewrite (delete_task_found D task_id o f pre post H Hf Ht Hn).
      simpl. rewrite Ht. apply sublist_app; [done |]. by apply sublist_cons.
  - destruct w as [D|]; [| done].
    destruct (fault D) as [msg|] eqn:Hf.
    + by rewrite (create_task_fault D now new_id c msg Hf).
    + rewrite (create_task_success D now new_id c Hf). by apply prefix_app_r.
Qed.

(** C4.  On a reachable store a create request appends exactly one document
    to the collection, stored under the identifier the store assigned, with
    [completed] false and the title of the request, and returns that
    identifier as text; the documents already stored are left as they were.
    When the store fails, or the handle was never set up, the request raises
    the 500 error with the text of the exception and stores nothing. *)
Theorem create_task_inserts_one (D : Database) (now : datetime) (new_id : ObjectId)
    (c : TaskCreate) :
  (fault D = None →
   ∃ doc,
     create_task now new_id c (Some D)
     = (Some (set_task (task D ++ [(new_id, doc)]) D),
        Return (<["id" := VStr (str_ObjectId new_id)]> ∅)) ∧
     doc !! "completed" = Some (VBool false) ∧
     doc !! "title" = Some (VStr (c_title c))) ∧
  (∀ msg, fault D = Some msg →
     create_task now new_id c (Some D)
     = (Some D, Raise (HTTPException 500 (str_exn (PyMongoError msg))))) ∧
  create_task now new_id c None
  = (None, Raise (HTTPException 500 (str_exn (Exception not_available)))).
Proof.
  split; [| split].
  - intros Hf. exists (bson_doc (new_document now (Task_new c false))).
    split; [by apply create_task_success | split].
    + rewrite bson_doc_lookup, new_document_lookup by done. unfold Task_model_dump.
      rewrite !lookup_insert_ne by done. by rewrite lookup_insert_eq.
    + rewrite bson_doc_lookup, new_document_lookup by done.
      unfold Task_model_dump. by rewrite lookup_insert_eq.
  - intros msg Hf. by apply create_task_fault.
  - reflexivity.
Qed.

Lemma create_task_inserts_one_witness :
  (∃ doc,
     create_task later oid_b (mkTaskCreate "Call" None None None None) (Some db_x)
     = (Some (set_task (task db_x ++ [(oid_b, doc)]) db_x),
        Return (<["id" := VStr (str_ObjectId oid_b)]> ∅)) ∧
     doc !! "completed" = Some (VBool false) ∧
     doc !! "title" = Some (VStr "Call")) ∧
  create_task later oid_b (mkTaskCreate "Call" None None None None)
    (Some (mkDatabase None (Some "timed out") [] []))
  = (Some (mkDatabase None (Some "timed out") [] []),
     Raise (HTTPException 500 "timed out")).
Proof.
  split.
  - apply (create_task_inserts_one db_x later oid_b (mkTaskCreate "Call" None None None None)).
    reflexivity.
  - apply (create_task_inserts_one (mkDatabase None (Some "timed out") [] []) later oid_b
             (mkTaskCreate "Call" None None None None)).
    reflexivity.
Defined.

(** ** Null members of an update *)

Lemma optional_drop_null {A} (m : member A) : optional (drop_null m) = optional m.
Proof. by destruct m. Qed.

Lemma validate_nulls_as_omitted (b : TaskUpdateBody) :
  validate_TaskUpdate (nulls_as_omitted b) = validate_TaskUpdate b.
Proof.
  unfold validate_TaskUpdate, nulls_as_omitted. simpl.
  by rewrite !optional_drop_null.
Qed.

Lemma supplied_null (b : TaskUpdateBody) (k : string) :
  member_of b k = Null → supplied (validate_TaskUpdate b) k = None ∧ k ≠ "updated_at".
Proof.
  unfold member_of, supplied, validate_TaskUpdate. simpl.
  repeat case_decide; subst; try done.
  - by destruct (b_title b).
  - by destruct (b_description b).
  - by destruct (b_category b).
  - by destruct (b_due_date b).
  - by destruct (b_priority b).
  - by destruct (b_completed b).
Qed.

Lemma supplied_not_none (p : TaskUpdate) (k : string) : supplied p k ≠ Some VNone.
Proof.
  unfold supplied. repeat case_decide; try done.
  - by destruct (title p).
  - by destruct (description p).
  - by destruct (category p).
  - by destruct (due_date p).
  - by destruct (priority p).
  - by destruct (completed p).
Qed.

(** C9.  A member given as [null] and a member left out give the same
    update: the handler behaves alike on the two bodies, the [$set] document
    never holds a null value, and a field whose member is [null] keeps its
    stored value. *)
Theorem null_member_is_omitted (b : TaskUpdateBody) (now : datetime)
    (task_id : string) (w : handle) :
  update_task now task_id (validate_TaskUpdate b) w
    = update_task now task_id (validate_TaskUpdate (nulls_as_omitted b)) w ∧
  (∀ k, update_data now (validate_TaskUpdate b) !! k ≠ Some VNone) ∧
  (∀ D o f pre post k,
     w = Some D → fault D = None → ObjectId_new task_id = Return o →
     task D = pre ++ (o, f) :: post → o ∉ fst <$> pre →
     member_of b k = Null →
     ∃ f', fst (update_task now task_id (validate_TaskUpdate b) w)
           = Some (set_task (pre ++ (o, f') :: post) D) ∧
           f' !! k = f !! k).
Proof.
  split; [by rewrite validate_nulls_as_omitted | split].
  - intros k. rewrite update_data_lookup. case_decide; [done |].
    apply supplied_not_none.
  - intros D o f pre post k -> Hf Hid Ht Hn Hk.
    destruct (supplied_null b k Hk) as [Hs Hne].
    exists (bson_doc (update_data now (validate_TaskUpdate b)) ∪ f). split.
    + by rewrite (update_task_found D now task_id _ o f pre post Hid Hf Ht Hn).
    + apply lookup_union_r. rewrite stored_update_lookup.
      rewrite decide_False by done. by rewrite Hs.
Qed.

Lemma null_member_is_omitted_witness :
  ∃ f', fst (update_task later "6162636465666768696a6b6c"
               (validate_TaskUpdate
                  (mkTaskUpdateBody Omitted Null Omitted Omitted Omitted (Given true)))
               (Some db_milk))
        = Some (set_task ([] ++ (oid_a, f') :: [(oid_b, task_x)]) db_milk) ∧
        f' !! "description" = task_milk !! "description".
Proof.
  destruct (null_member_is_omitted
              (mkTaskUpdateBody Omitted Null Omitted Omitted Omitted (Given true))
              later "6162636465666768696a6b6c" (Some db_milk)) as (_ & _ & H).
  apply (H db_milk oid_a task_milk [] [(oid_b, task_x)] "description");
    [reflexivity | reflexivity | reflexivity | reflexivity | apply not_elem_of_nil | reflexivity].
Defined.

(** ** What the handlers return *)

Lemma rendered_is_rendering (t : ObjectId * dict) :
  rendering_of (to_dict t) (rendered (to_dict t)).
Proof.
  exists (fst t). pose proof (to_dict_id t) as Hid.
  split; [done | split; [| split]].
  - by rewrite (rendered_lookup _ _ _ Hid).
  - by rewrite (rendered_lookup _ _ _ Hid).
  - intros k t' Hk Hd. split; [| apply isoformat_is_iso8601].
    rewrite (rendered_lookup _ _ _ Hid), Hd.
    rewrite !elem_of_cons in Hk. destruct Hk as [->|[->|[->|Hk]]]; [done | done | done |].
    by apply elem_of_nil in Hk.
Qed.

(** C7.  Each document the list operation returns, and the document a
    successful update returns, is the rendering of a stored document: the
    identifier as text under [id], no [_id], and each of [created_at],
    [updated_at] and [due_date] that is a timestamp as ISO-8601 text. *)
Theorem returned_documents_rendered (w w' : handle) :
  (∀ category q docs r,
     list_tasks category q w = (w', Return docs) → r ∈ docs →
     ∃ d, d ∈ stored w' ∧ rendering_of d r) ∧
  (∀ now task_id p r,
     update_task now task_id p w = (w', Return r) →
     ∃ d, d ∈ stored w' ∧ rendering_of d r).
Proof.
  split.
  - intros category q docs r H Hr.
    destruct (list_tasks_returns _ _ _ _ _ H) as (D & -> & -> & ->).
    apply list_elem_of_fmap in Hr as (d & -> & Hd).
    apply list_elem_of_filter in Hd as [_ Hd].
    exists d. split; [done |].
    apply list_elem_of_fmap in Hd as (t & -> & _). apply rendered_is_rendering.
  - intros now task_id p r H.
    destruct w as [D|]; [| by rewrite update_task_no_db in H].
    destruct (ObjectId_new_cases task_id) as [Hid|[o Hid]].
    { by rewrite (update_task_bad_id D now task_id p _ Hid) in H. }
    destruct (fault D) as [msg|] eqn:Hf.
    { by rewrite (update_task_fault D now task_id p o msg Hid Hf) in H. }
    destruct (update_first_cases o (update_data now p) (task D) (update_data_no_id now p))
      as [[Hm _]|(pre & f & post & Ht & Hn & _)].
    { by rewrite (update_task_missing D now task_id p o Hid Hf Hm) in H. }
    rewrite (update_task_found D now task_id p o f pre post Hid Hf Ht Hn) in H.
    remember (rendered (to_dict (o, bson_doc (update_data now p) ∪ f))) as X eqn:HX.
    remember (set_task (pre ++ (o, bson_doc (update_data now p) ∪ f) :: post) D) as Y eqn:HY.
    injection H as <- <-. subst X Y.
    exists (to_dict (o, bson_doc (update_data now p) ∪ f)). split; [| apply rendered_is_rendering].
    unfold stored. simpl. apply list_elem_of_fmap. eexists. split; [done |].
    apply elem_of_app. right. by left.
Qed.

Lemma returned_documents_rendered_witness :
  (∃ d, d ∈ stored (Some db_milk) ∧
        rendering_of d (rendered (to_dict (oid_a, task_milk)))) ∧
  (∃ d, d ∈ stored (fst (update_task later "6162636465666768696a6b6c"
                           (mkTaskUpdate None None None (Some noon) None None)
                           (Some db_milk))) ∧
        rendering_of d
          (rendered (to_dict (oid_a,
             bson_doc (update_data later (mkTaskUpdate None None None (Some noon) None None))
               ∪ task_milk)))).
Proof.
  split.
  - apply (proj1 (returned_documents_rendered (Some db_milk) (Some db_milk))
             (Some "home") None [rendered (to_dict (oid_a, task_milk))]);
      [by vm_compute | by left].
  - apply (proj2 (returned_documents_rendered (Some db_milk) _)
             later "6162636465666768696a6b6c"
             (mkTaskUpdate None None None (Some noon) None None)).
    apply (update_task_found db_milk later "6162636465666768696a6b6c" _ oid_a task_milk
             [] [(oid_b, task_x)]);
      [reflexivity | reflexivity | reflexivity | apply not_elem_of_nil].
Defined.

(** ** Diagnostics *)

Lemma py_slice_to_length (n : nat) (s : string) :
  (String.length (py_slice_to n s) ≤ n)%nat.
Proof.
  unfold py_slice_to. revert s. induction n as [|n IH]; intros [|c s]; simpl; try lia.
  specialize (IH s). lia.
Qed.

Lemma py_slice_to_prefix (n : nat) (s : string) : ∃ rest, s = py_slice_to n s +:+ rest.
Proof.
  unfold py_slice_to. revert s. induction n as [|n IH]; intros [|c s]; simpl.
  - by exists "".
  - by exists (String c s).
  - by exists "".
  - destruct (IH s) as [rest Hr]. exists rest. rewrite append_cons. by f_equal.
Qed.

Ltac lookup_item := rewrite ?lookup_insert_ne by done; apply lookup_insert_eq.

(** C6.  Whatever the environment and the state of the database, the
    diagnostics handler returns a report, so the answer is a 200.  The
    report lists at most ten collection names, the first ten of the database
    when it can be reached; when the enumeration fails, the [database] entry
    ends with the first fifty characters, at most, of the exception text. *)
Theorem test_database_always_answers (getenv : string → option string) (db : handle) :
  ∃ r, test_database getenv db = Return r ∧
       http_status (test_database getenv db) = Some 200%nat ∧
       (∃ l, r !! "collections" = Some (DList l) ∧ (length l ≤ 10)%nat ∧
             ∀ D, db = Some D → fault D = None → l = take 10 (collection_names D)) ∧
       (∀ D msg, db = Some D → fault D = Some msg →
          ∃ text, r !! "database" = Some (DStr ("⚠️  Connected but Error: " +:+ text)) ∧
                  text = py_slice_to 50 (str_exn (PyMongoError msg)) ∧
                  (String.length text ≤ 50)%nat ∧
                  ∃ rest, msg = text +:+ rest).
Proof.
  destruct db as [D|]; [destruct (fault D) as [msg|] eqn:Hf |].
  - unfold test_database. run.
    unfold set_item, modify, on_db, list_collection_names, server_call.
    simpl. rewrite Hf. simpl.
    eexists. split; [reflexivity | split; [reflexivity | split]].
    + exists []. split; [lookup_item | split; [simpl; lia |]].
      intros D' [= <-]. by rewrite Hf.
    + intros D' msg' [= <-]. rewrite Hf. intros [= <-].
      exists (py_slice_to 50 msg). split; [lookup_item | split; [done | split]].
      * apply py_slice_to_length.
      * apply py_slice_to_prefix.
  - unfold test_database. run.
    unfold set_item, modify, on_db, list_collection_names, server_call.
    simpl. rewrite Hf. simpl.
    eexists. split; [reflexivity | split; [reflexivity | split]].
    + exists (take 10 (collection_names D)).
      split; [lookup_item | split; [rewrite length_take; lia |]].
      by intros D' [= <-].
    + intros D' msg' [= <-]. by rewrite Hf.
  - eexists. split; [reflexivity | split; [reflexivity | split]].
    + exists []. split; [by vm_compute | split; [simpl; lia | done]].
    + done.
Qed.

Lemma test_database_always_answers_witness :
  ∃ r, test_database (fun _ => None) (Some (mkDatabase None (Some "timed out") [] [])) = Return r ∧
       ∃ text, r !! "database" = Some (DStr ("⚠️  Connected but Error: " +:+ text)) ∧
               text = "timed out".
Proof.
  destruct (test_database_always_answers (fun _ => None)
              (Some (mkDatabase None (Some "timed out") [] [])))
    as (r & Hr & _ & _ & H).
  exists r. split; [exact Hr |].
  destruct (H _ "timed out" eq_refl eq_refl) as (text & H1 & H2 & _).
  exists text. split; [exact H1 | exact H2].
Defined.

(** ** Identifiers as text *)

Lemma hex_value_hexdigit (n : nat) : hex_value (hexdigit n) = Some (n mod 16)%nat.
Proof.
  unfold hexdigit.
  assert (n mod 16 < 16)%nat as Hlt by (apply Nat.mod_upper_bound; lia).
  destruct (n mod 16)%nat as [|m] eqn:E; [reflexivity |].
  do 15 (destruct m as [|m]; [reflexivity |]). lia.
Qed.

Lemma hexdigit_not_space (n : nat) : is_space (hexdigit n) = false.
Proof.
  unfold hexdigit.
  assert (n mod 16 < 16)%nat as Hlt by (apply Nat.mod_upper_bound; lia).
  destruct (n mod 16)%nat as [|m] eqn:E; [reflexivity |].
  do 15 (destruct m as [|m]; [reflexivity |]). lia.
Qed.

Lemma fromhex_hex (b : string) : fromhex (hex b) = Some b.
Proof.
  induction b as [|c b IH]; [done |].
  cbn [hex fromhex]. rewrite hexdigit_not_space, !hex_value_hexdigit, IH.
  pose proof (nat_ascii_bounded c) as Hc. unfold code.
  assert ((nat_of_ascii c / 16) mod 16 = nat_of_ascii c / 16)%nat as ->.
  { apply Nat.mod_small. apply Nat.Div0.div_lt_upper_bound. lia. }
  rewrite <- Nat.div_mod_eq. by rewrite ascii_nat_embedding.
Qed.

Lemma hex_length (b : string) : String.length (hex b) = (2 * String.length b)%nat.
Proof. induction b as [|c b IH]; [done |]. cbn [hex String.length]. rewrite IH. lia. Qed.

Lemma ObjectId_of_str (o : ObjectId) :
  String.length (binary o) = 12%nat → ObjectId_new (str_ObjectId o) = Return o.
Proof.
  intros H. unfold ObjectId_new, str_ObjectId.
  rewrite decide_True by (rewrite hex_length, H; done).
  rewrite fromhex_hex. by destruct o.
Qed.

Lemma str_ObjectId_inj (o1 o2 : ObjectId) : str_ObjectId o1 = str_ObjectId o2 → o1 = o2.
Proof.
  unfold str_ObjectId. intros H.
  assert (Some (binary o1) = Some (binary o2)) as [= Hb].
  { by rewrite <- !fromhex_hex, H. }
  destruct o1, o2. simpl in Hb. by subst.
Qed.

(** ** Further properties of update and delete *)

(** A delete of an existing task on a reachable store answers
    [{"status": "ok"}] and removes the first document stored under the
    identifier, and nothing else: one document fewer, the others as they
    were and in the same order. *)
Theorem delete_task_removes_one (D : Database) (task_id : string) (o : ObjectId)
    (f : dict) (pre post : list (ObjectId * dict)) :
  fault D = None → ObjectId_new task_id = Return o →
  task D = pre ++ (o, f) :: post → o ∉ fst <$> pre →
  ∃ D',
    delete_task task_id (Some D) = (Some D', Return (<["status" := VStr "ok"]> ∅)) ∧
    task D' = pre ++ post ∧
    S (length (task D')) = length (task D) ∧
    fault D' = None ∧ collection_names D' = collection_names D.
Proof.
  intros Hf Hid Ht Hn. exists (set_task (pre ++ post) D).
  split; [by apply (delete_task_found D task_id o f pre post) |].
  split; [done | split; [| done]].
  simpl. rewrite Ht, !length_app. simpl. lia.
Qed.

Lemma delete_task_removes_one_witness :
  ∃ D',
    delete_task "6162636465666768696a6b6c" (Some db_milk)
      = (Some D', Return (<["status" := VStr "ok"]> ∅)) ∧
    task D' = [] ++ [(oid_b, task_x)] ∧
    S (length (task D')) = length (task db_milk) ∧
    fault D' = None ∧ collection_names D' = collection_names db_milk.
Proof.
  apply (delete_task_removes_one db_milk "6162636465666768696a6b6c" oid_a task_milk
           [] [(oid_b, task_x)]);
    [reflexivity | reflexivity | reflexivity | apply not_elem_of_nil].
Defined.

(** Whatever the state of the handle and whatever the request, an update
    either returns a document or raises an [HTTPException] with status 404
    or 500, and a delete likewise; when it raises, the store is as it was. *)
Theorem update_delete_outcomes (now : datetime) (task_id : string) (p : TaskUpdate)
    (w : handle) :
  ((∃ d, snd (update_task now task_id p w) = Return d) ∨
   (∃ status detail,
      snd (update_task now task_id p w) = Raise (HTTPException status detail) ∧
      (status = 404%nat ∨ status = 500%nat) ∧
      fst (update_task now task_id p w) = w)) ∧
  ((∃ d, snd (delete_task task_id w) = Return d) ∨
   (∃ status detail,
      snd (delete_task task_id w) = Raise (HTTPException status detail) ∧
      (status = 404%nat ∨ status = 500%nat) ∧
      fst (delete_task task_id w) = w)).
Proof.
  split.
  - destruct w as [D|]; [| right; exists 500%nat, not_available; by eauto].
    destruct (ObjectId_new_cases task_id) as [H|[o H]].
    { right. rewrite (update_task_bad_id D now task_id p _ H). eauto 10. }
    destruct (fault D) as [msg|] eqn:Hf.
    { right. rewrite (update_task_fault D now task_id p o msg H Hf). eauto 10. }
    destruct (update_first_cases o (update_data now p) (task D) (update_data_no_id now p))
      as [[Hm _]|(pre & f & post & Ht & Hn & _)].
    + right. rewrite (update_task_missing D now task_id p o H Hf Hm). eauto 10.
    + left. rewrite (update_task_found D now task_id p o f pre post H Hf Ht Hn). eauto.
  - destruct w as [D|]; [| right; exists 500%nat, not_available; by eauto].
    destruct (ObjectId_new_cases task_id) as [H|[o H]].
    { right. rewrite (delete_task_bad_id D task_id _ H). eauto 10. }
    destruct (fault D) as [msg|] eqn:Hf.
    { right. rewrite (delete_task_fault D task_id o msg H Hf). eauto 10. }
    destruct (remove_first_cases o (task D)) as [[Hm _]|(pre & f & post & Ht & Hn & _)].
    + right. rewrite (delete_task_missing D task_id o H Hf Hm). eauto 10.
    + left. rewrite (delete_task_found D task_id o f pre post H Hf Ht Hn). eauto.
Qed.

(** Whatever the outcome of an update, a stored document whose identifier
    is not the one the request names stays where it is, unchanged. *)
Theorem update_task_other_documents (now : datetime) (task_id : string)
    (p : TaskUpdate) (w : handle) (i : nat) (t : ObjectId * dict) :
  tasks_of w !! i = Some t → ObjectId_new task_id ≠ Return (fst t) →
  tasks_of (fst (update_task now task_id p w)) !! i = Some t.
Proof.
  intros Hi Hne. destruct w as [D|]; [| done].
  destruct (ObjectId_new_cases task_id) as [H|[o H]].
  { by rewrite (update_task_bad_id D now task_id p _ H). }
  destruct (fault D) as [msg|] eqn:Hf.
  { by rewrite (update_task_fault D now task_id p o msg H Hf). }
  destruct (update_first_cases o (update_data now p) (task D) (update_data_no_id now p))
    as [[Hm _]|(pre & f & post & Ht & Hn & _)].
  { by rewrite (update_task_missing D now task_id p o H Hf Hm). }
  rewrite (update_task_found D now task_id p o f pre post H Hf Ht Hn).
  simpl in *. rewrite Ht in Hi.
  destruct (decide (i < length pre)%nat) as [Hlt|Hge].
  - rewrite lookup_app_l in Hi by done. by rewrite lookup_app_l.
  - rewrite lookup_app_r in Hi by lia. rewrite lookup_app_r by lia.
    destruct (i - length pre)%nat as [|j]; [| done].
    simpl in Hi. injection Hi as <-. simpl in Hne. by rewrite H in Hne.
Qed.

Lemma update_task_other_documents_witness :
  tasks_of (fst (update_task later "6162636465666768696a6b6c"
                   (mkTaskUpdate (Some "t") None None None None None) (Some db_milk)))
    !! 1%nat = Some (oid_b, task_x).
Proof.
  apply (update_task_other_documents later "6162636465666768696a6b6c"
           (mkTaskUpdate (Some "t") None None None None None) (Some db_milk) 1
           (oid_b, task_x)); [reflexivity | discriminate].
Defined.

(** ** Further properties of listing *)

(** A list request never changes the store, and the only exception it
    raises is the 500 [HTTPException]; on a store that cannot be reached the
    detail is the text of the store's exception. *)
Theorem list_tasks_read_only (category q : option string) (w : handle) :
  fst (list_tasks category q w) = w ∧
  (∀ e, snd (list_tasks category q w) = Raise e → ∃ detail, e = HTTPException 500 detail) ∧
  (∀ D msg, w = Some D → fault D = Some msg →
     snd (list_tasks category q w) = Raise (HTTPException 500 msg)).
Proof.
  destruct w as [D|]; cycle 1.
  { assert (list_tasks category q None = (None, Raise (HTTPException 500 not_available)))
      as -> by reflexivity.
    split; [done | split; [| done]]. intros e [= <-]. eauto. }
  destruct (fault D) as [msg|] eqn:Hf.
  - assert (list_tasks category q (Some D) = (Some D, Raise (HTTPException 500 msg))) as ->.
    { unfold list_tasks, try_except, get_documents, bind, get, find, server_call.
      simpl. by rewrite Hf. }
    split; [done | split].
    + intros e [= <-]. eauto.
    + intros D' msg' [= <-]. rewrite Hf. by intros [= <-].
  - destruct (forallb clause_supported (list_filter category q)) eqn:Hs.
    + rewrite (list_tasks_run D category q Hf Hs).
      split; [done | split; [done |]]. intros D' msg' [= <-]. by rewrite Hf.
    + assert (list_tasks category q (Some D) = (Some D, Unmodelled)) as ->.
      { unfold list_tasks, try_except, get_documents, bind, get, find, server_call.
        simpl. by rewrite Hf, Hs. }
      split; [done | split; [done |]]. intros D' msg' [= <-]. by rewrite Hf.
Qed.

Lemma list_tasks_read_only_witness :
  snd (list_tasks (Some "home") (Some "milk") (Some (mkDatabase None (Some "timed out") [] [])))
  = Raise (HTTPException 500 "timed out").
Proof.
  destruct (list_tasks_read_only (Some "home") (Some "milk")
              (Some (mkDatabase None (Some "timed out") [] []))) as (_ & _ & H).
  exact (H _ "timed out" eq_refl eq_refl).
Defined.

(** With a category that is not empty and no [q], the list operation on a
    reachable store returns, in the order of the store, the rendering of
    exactly the documents whose [category] field is that text; a document
    with another category, a null category or none is left out. *)
Theorem list_tasks_by_category (D : Database) (c : string) :
  fault D = None → c ≠ "" →
  list_tasks (Some c) None (Some D)
  = (Some D,
     Return (rendered <$> filter (fun d => d !! "category" = Some (VStr c)) (documents D))).
Proof.
  intros Hf Hc.
  assert (list_filter (Some c) None = [Field "category" (CEq (VStr c))]) as Hflt.
  { unfold list_filter, truthy. by rewrite bool_decide_eq_false_2. }
  rewrite (list_tasks_run D (Some c) None Hf) by (by rewrite Hflt).
  rewrite Hflt. do 3 f_equal. apply list_filter_iff. intros d.
  unfold eval_filter. cbn [forallb eval_clause]. rewrite andb_true_r.
  rewrite Is_true_true. apply eval_category.
Qed.

Lemma list_tasks_by_category_witness :
  list_tasks (Some "home") None (Some db_milk)
  = (Some db_milk,
     Return (rendered <$> filter (fun d => d !! "category" = Some (VStr "home"))
                            (documents db_milk))).
Proof.
  apply (list_tasks_by_category db_milk "home"); [reflexivity | discriminate].
Defined.

(** ** Identifiers go round *)

(** The [id] text of a rendered document names that document again: with
    twelve-byte identifiers, as the store assigns them, the text parses to
    the identifier it came from, a delete with it removes that very
    document, and an update with it changes that very document, which then
    holds the [$set] document as the store keeps it over its former fields. *)
Theorem rendered_id_round_trip (D : Database) (now : datetime) (p : TaskUpdate)
    (o : ObjectId) (f : dict) (pre post : list (ObjectId * dict)) :
  fault D = None → task D = pre ++ (o, f) :: post → o ∉ fst <$> pre →
  String.length (binary o) = 12%nat →
  ∃ s,
    rendered (to_dict (o, f)) !! "id" = Some (VStr s) ∧
    ObjectId_new s = Return o ∧
    delete_task s (Some D)
      = (Some (set_task (pre ++ post) D), Return (<["status" := VStr "ok"]> ∅)) ∧
    fst (update_task now s p (Some D))
      = Some (set_task (pre ++ (o, bson_doc (update_data now p) ∪ f) :: post) D).
Proof.
  intros Hf Ht Hn Hlen. exists (str_ObjectId o).
  pose proof (ObjectId_of_str o Hlen) as Hid.
  split; [| split; [done | split]].
  - by rewrite (rendered_lookup _ o _ (to_dict_id (o, f))).
  - by apply (delete_task_found D _ o f pre post).
  - by rewrite (update_task_found D now _ p o f pre post Hid Hf Ht Hn).
Qed.

Lemma rendered_id_round_trip_witness :
  ∃ s,
    rendered (to_dict (oid_a, task_milk)) !! "id" = Some (VStr s) ∧
    ObjectId_new s = Return oid_a ∧
    delete_task s (Some db_milk)
      = (Some (set_task ([] ++ [(oid_b, task_x)]) db_milk),
         Return (<["status" := VStr "ok"]> ∅)) ∧
    fst (update_task later s (mkTaskUpdate None None None None None (Some true)) (Some db_milk))
      = Some (set_task ([] ++ (oid_a,
                 bson_doc (update_data later (mkTaskUpdate None None None None None (Some true)))
                   ∪ task_milk) :: [(oid_b, task_x)]) db_milk).
Proof.
  apply (rendered_id_round_trip db_milk later
           (mkTaskUpdate None None None None None (Some true)) oid_a task_milk
           [] [(oid_b, task_x)]);
    [reflexivity | reflexivity | apply not_elem_of_nil | reflexivity].
Defined.

(** ** Operations in sequence *)

(** An update repeated with the same payload at the same time changes
    nothing more: the second request returns the same document and leaves
    the store as the first one left it. *)
Theorem update_task_idempotent (D : Database) (now : datetime) (task_id : string)
    (p : TaskUpdate) (o : ObjectId) (f : dict) (pre post : list (ObjectId * dict)) :
  fault D = None → ObjectId_new task_id = Return o →
  task D = pre ++ (o, f) :: post → o ∉ fst <$> pre →
  ∃ D' r,
    update_task now task_id p (Some D) = (Some D', Return r) ∧
    update_task now task_id p (Some D') = (Some D', Return r).
Proof.
  intros Hf Hid Ht Hn.
  exists (set_task (pre ++ (o, bson_doc (update_data now p) ∪ f) :: post) D),
         (rendered (to_dict (o, bson_doc (update_data now p) ∪ f))).
  split; [by apply update_task_found |].
  rewrite (update_task_found (set_task (pre ++ (o, bson_doc (update_data now p) ∪ f) :: post) D)
             now task_id p o (bson_doc (update_data now p) ∪ f) pre post Hid Hf eq_refl Hn).
  assert (bson_doc (update_data now p) ∪ (bson_doc (update_data now p) ∪ f)
          = bson_doc (update_data now p) ∪ f) as ->; [| done].
  apply map_eq. intros k. rewrite !lookup_union.
  by destruct (bson_doc (update_data now p) !! k), (f !! k).
Qed.

Lemma update_task_idempotent_witness :
  ∃ D' r,
    update_task later "6162636465666768696a6b6c"
      (mkTaskUpdate (Some "Buy oat milk") None None None None None) (Some db_milk)
    = (Some D', Return r) ∧
    update_task later "6162636465666768696a6b6c"
      (mkTaskUpdate (Some "Buy oat milk") None None None None None) (Some D')
    = (Some D', Return r).
Proof.
  apply (update_task_idempotent db_milk later "6162636465666768696a6b6c"
           (mkTaskUpdate (Some "Buy oat milk") None None None None None) oid_a task_milk
           [] [(oid_b, task_x)]);
    [reflexivity | reflexivity | reflexivity | apply not_elem_of_nil].
Defined.

(** After a successful update, a list request without parameters returns
    every task, and at the place of the updated task it returns the very
    document the update returned. *)
Theorem update_then_list (D : Database) (now : datetime) (task_id : string)
    (p : TaskUpdate) (o : ObjectId) (f : dict) (pre post : list (ObjectId * dict)) :
  fault D = None → ObjectId_new task_id = Return o →
  task D = pre ++ (o, f) :: post → o ∉ fst <$> pre →
  ∃ D' r,
    update_task now task_id p (Some D) = (Some D', Return r) ∧
    list_tasks None None (Some D')
    = (Some D',
       Return ((rendered <$> (to_dict <$> pre)) ++ r :: (rendered <$> (to_dict <$> post)))).
Proof.
  intros Hf Hid Ht Hn.
  exists (set_task (pre ++ (o, bson_doc (update_data now p) ∪ f) :: post) D),
         (rendered (to_dict (o, bson_doc (update_data now p) ∪ f))).
  split; [by apply update_task_found |].
  rewrite (list_tasks_run (set_task (pre ++ (o, bson_doc (update_data now p) ∪ f) :: post) D)
             None None) by done.
  change (list_filter None None) with (@nil clause). rewrite filter_all.
  unfold documents. simpl. by rewrite !fmap_app, !fmap_cons.
Qed.

Lemma update_then_list_witness :
  ∃ D' r,
    update_task later "6162636465666768696a6b6c"
      (mkTaskUpdate None None None None None (Some true)) (Some db_milk)
    = (Some D', Return r) ∧
    list_tasks None None (Some D')
    = (Some D',
       Return ((rendered <$> (to_dict <$> [])) ++
               r :: (rendered <$> (to_dict <$> [(oid_b, task_x)])))).
Proof.
  apply (update_then_list db_milk later "6162636465666768696a6b6c"
           (mkTaskUpdate None None None None None (Some true)) oid_a task_milk
           [] [(oid_b, task_x)]);
    [reflexivity | reflexivity | reflexivity | apply not_elem_of_nil].
Defined.

(** After a successful delete of a task whose identifier is stored once, a
    list request without parameters returns the other tasks as before, and
    no returned document carries the identifier of the deleted task. *)
Theorem delete_then_list (D : Database) (task_id : string) (o : ObjectId) (f : dict)
    (pre post : list (ObjectId * dict)) :
  fault D = None → ObjectId_new task_id = Return o →
  task D = pre ++ (o, f) :: post → o ∉ fst <$> pre → o ∉ fst <$> post →
  ∃ D',
    delete_task task_id (Some D) = (Some D', Return (<["status" := VStr "ok"]> ∅)) ∧
    list_tasks None None (Some D')
    = (Some D', Return (rendered <$> (to_dict <$> (pre ++ post)))) ∧
    ∀ r, r ∈ rendered <$> (to_dict <$> (pre ++ post)) →
         r !! "id" ≠ Some (VStr (str_ObjectId o)).
Proof.
  intros Hf Hid Ht Hn Hp. exists (set_task (pre ++ post) D).
  split; [by apply (delete_task_found D task_id o f pre post) | split].
  - rewrite (list_tasks_run (set_task (pre ++ post) D) None None) by done.
    change (list_filter None None) with (@nil clause). by rewrite filter_all.
  - intros r (d & -> & (t & -> & Hin)%list_elem_of_fmap)%list_elem_of_fmap.
    rewrite (rendered_lookup _ (fst t) _ (to_dict_id t)).
    rewrite decide_False, decide_True by done.
    intros [= Heq%str_ObjectId_inj].
    apply elem_of_app in Hin as [Hin|Hin].
    + apply Hn. apply list_elem_of_fmap. by exists t.
    + apply Hp. apply list_elem_of_fmap. by exists t.
Qed.

Lemma delete_then_list_witness :
  ∃ D',
    delete_task "6162636465666768696a6b6c" (Some db_milk)
      = (Some D', Return (<["status" := VStr "ok"]> ∅)) ∧
    list_tasks None None (Some D')
    = (Some D', Return (rendered <$> (to_dict <$> ([] ++ [(oid_b, task_x)])))) ∧
    ∀ r, r ∈ rendered <$> (to_dict <$> ([] ++ [(oid_b, task_x)])) →
         r !! "id" ≠ Some (VStr (str_ObjectId oid_a)).
Proof.
  apply (delete_then_list db_milk "6162636465666768696a6b6c" oid_a task_milk
           [] [(oid_b, task_x)]);
    [reflexivity | reflexivity | reflexivity | apply not_elem_of_nil |].
  simpl. rewrite not_elem_of_cons. split; [discriminate | apply not_elem_of_nil].
Defined.

(** ** Further properties of rendering *)

Lemma normalize_lookup (d r : dict) (j : string) :
  normalize d = Return r →
  r !! j =
    if decide (j = "_id") then None
    else if decide (j = "id") then (fun v => VStr (py_str v)) <$> d !! "_id"
    else if decide (j = "created_at" ∨ j = "updated_at" ∨ j = "due_date")
         then iso_value <$> d !! j
         else d !! j.
Proof.
  unfold normalize. destruct (d !! "_id") as [v|] eqn:Hid; [| done].
  intros [= <-]. rewrite !iso_field_lookup.
  repeat (destruct (decide _) as [?|?]); simplify_eq; try done;
    rewrite ?lookup_insert_eq, ?lookup_insert_ne, ?lookup_delete_eq, ?lookup_delete_ne by done;
    try done; try tauto.
Qed.

(** The rendering of lines 99-105 fails with [KeyError] on a document
    without [_id].  On a document with [_id] it returns a document in which
    [id] is the text of that value (a field [id] stored before is replaced),
    [_id] is gone, and every other field is as it was, the three timestamp
    fields included when they do not hold a datetime. *)
Theorem normalize_effect (d : dict) :
  (d !! "_id" = None → normalize d = Raise (KeyError "_id")) ∧
  (∀ v, d !! "_id" = Some v →
     ∃ r, normalize d = Return r ∧
          r !! "id" = Some (VStr (py_str v)) ∧
          r !! "_id" = None ∧
          ∀ k, k ≠ "_id" → k ≠ "id" →
               (k ∈ ["created_at"; "updated_at"; "due_date"] →
                ∀ t, d !! k ≠ Some (VDatetime t)) →
               r !! k = d !! k).
Proof.
  split.
  - intros H. unfold normalize. by rewrite H.
  - intros v Hv. exists (rendered d).
    pose proof (normalize_with_id d v Hv) as Hr.
    split; [done | split; [| split]].
    + by rewrite (normalize_lookup d _ "id" Hr), Hv.
    + by rewrite (normalize_lookup d _ "_id" Hr).
    + intros k H1 H2 H3. rewrite (normalize_lookup d _ k Hr).
      rewrite !decide_False by done. case_decide as Hk; [| done].
      assert (k ∈ ["created_at"; "updated_at"; "due_date"]) as Hin.
      { rewrite !elem_of_cons. tauto. }
      specialize (H3 Hin). destruct (d !! k) as [[| | |t|]|]; try done.
      by destruct (H3 t).
Qed.

Lemma normalize_effect_witness :
  normalize task_x = Raise (KeyError "_id") ∧
  ∃ r, normalize (<["id" := VStr "old"]> (to_dict (oid_a, task_milk))) = Return r ∧
       r !! "id" = Some (VStr (py_str (VObjectId oid_a))) ∧
       r !! "_id" = None ∧
       ∀ k, k ≠ "_id" → k ≠ "id" →
            (k ∈ ["created_at"; "updated_at"; "due_date"] →
             ∀ t, <["id" := VStr "old"]> (to_dict (oid_a, task_milk)) !! k ≠ Some (VDatetime t)) →
            r !! k = <["id" := VStr "old"]> (to_dict (oid_a, task_milk)) !! k.
Proof.
  split.
  - apply (proj1 (normalize_effect task_x)). reflexivity.
  - apply (proj2 (normalize_effect (<["id" := VStr "old"]> (to_dict (oid_a, task_milk))))
             (VObjectId oid_a)). reflexivity.
Defined.

Lemma supplied_Some_key (p : TaskUpdate) (k : string) (v : value) :
  supplied p k = Some v →
  k ≠ "_id" ∧ k ≠ "id" ∧ k ≠ "created_at" ∧ k ≠ "updated_at" ∧
  (k ≠ "due_date" → iso_value v = v).
Proof.
  unfold supplied. intros H.
  repeat (case_decide; [subst k |]); [.. | done];
    apply fmap_Some in H as (x & _ & ->); repeat split; try done; by intros [].
Qed.

(** The document a successful update returns shows the identifier of the
    task as text, [updated_at] as the ISO text of the current time as the
    store keeps it (to the millisecond), every supplied field with the
    supplied value as the store keeps it (a supplied due date as ISO text,
    to the millisecond), and every other field as a rendering of the
    document stored before would show it. *)
Theorem update_task_response (D : Database) (now : datetime) (task_id : string)
    (p : TaskUpdate) (o : ObjectId) (f : dict) (pre post : list (ObjectId * dict)) :
  fault D = None → ObjectId_new task_id = Return o →
  task D = pre ++ (o, f) :: post → o ∉ fst <$> pre →
  ∃ r,
    snd (update_task now task_id p (Some D)) = Return r ∧
    r !! "id" = Some (VStr (str_ObjectId o)) ∧
    r !! "updated_at" = Some (VStr (isoformat (to_millis now))) ∧
    (∀ k v, supplied p k = Some v → r !! k = Some (iso_value (bson_value v))) ∧
    (∀ k, supplied p k = None → k ≠ "updated_at" →
          r !! k = rendered (to_dict (o, f)) !! k).
Proof.
  intros Hf Hid Ht Hn. exists (rendered (to_dict (o, bson_doc (update_data now p) ∪ f))).
  split; [by rewrite (update_task_found D now task_id p o f pre post Hid Hf Ht Hn) |].
  pose proof (rendered_lookup (to_dict (o, bson_doc (update_data now p) ∪ f)) o) as Hr.
  split; [| split; [| split]].
  - by rewrite (Hr "id" (to_dict_id _)).
  - rewrite (Hr "updated_at" (to_dict_id _)).
    rewrite !decide_False by done. rewrite decide_True by tauto.
    rewrite to_dict_lookup by done. simpl.
    rewrite (lookup_union_Some_l _ _ _ (VDatetime (to_millis now))); [done |].
    by rewrite stored_update_lookup.
  - intros k v Hk. rewrite (Hr k (to_dict_id _)).
    destruct (supplied_Some_key p k v Hk) as (H1 & H2 & H3 & H4 & H5).
    assert (to_dict (o, bson_doc (update_data now p) ∪ f) !! k = Some (bson_value v)) as ->.
    { rewrite to_dict_lookup by done. simpl. apply lookup_union_Some_l.
      rewrite stored_update_lookup. rewrite decide_False by done. by rewrite Hk. }
    rewrite !decide_False by done. simpl.
    case_decide as Hd; [done |]. f_equal.
    assert (k ≠ "due_date") as Hk' by tauto. specialize (H5 Hk').
    destruct v; simpl in *; done.
  - intros k Hk Hne.
    rewrite (Hr k (to_dict_id _)), (rendered_lookup _ o k (to_dict_id (o, f))).
    assert (k ≠ "_id" →
            to_dict (o, bson_doc (update_data now p) ∪ f) !! k = to_dict (o, f) !! k) as E.
    { intros Hk'. rewrite !to_dict_lookup by done. simpl. apply lookup_union_r.
      rewrite stored_update_lookup. rewrite decide_False by done. by rewrite Hk. }
    destruct (decide (k = "_id")) as [?|Hk']; [done |]. by rewrite (E Hk').
Qed.

Lemma update_task_response_witness :
  ∃ r,
    snd (update_task later "6162636465666768696a6b6c"
           (mkTaskUpdate None None None (Some noon) None (Some true)) (Some db_milk))
      = Return r ∧
    r !! "id" = Some (VStr (str_ObjectId oid_a)) ∧
    r !! "updated_at" = Some (VStr (isoformat (to_millis later))) ∧
    (∀ k v, supplied (mkTaskUpdate None None None (Some noon) None (Some true)) k = Some v →
            r !! k = Some (iso_value (bson_value v))) ∧
    (∀ k, supplied (mkTaskUpdate None None None (Some noon) None (Some true)) k = None →
          k ≠ "updated_at" → r !! k = rendered (to_dict (oid_a, task_milk)) !! k).
Proof.
  apply (update_task_response db_milk later "6162636465666768696a6b6c"
           (mkTaskUpdate None None None (Some noon) None (Some true)) oid_a task_milk
           [] [(oid_b, task_x)]);
    [reflexivity | reflexivity | reflexivity | apply not_elem_of_nil].
Defined.

(** ** Further properties of the diagnostics *)

Ltac run_diagnostics Hf :=
  unfold test_database; run;
  unfold set_item, modify, on_db, list_collection_names, server_call;
  simpl; rewrite ?Hf; simpl.

(** The report always says that the backend runs; [database_url] and
    [database_name] only tell whether the environment variables
    [DATABASE_URL] and [DATABASE_NAME] hold a non-empty text, so the name of
    the database written on line 41 is never reported; and
    [connection_status] is [Connected] exactly when the handle is set, even
    if the store cannot be reached. *)
Theorem test_database_environment (getenv : string → option string) (db : handle) :
  ∃ r, test_database getenv db = Return r ∧
       r !! "backend" = Some (DStr "✅ Running") ∧
       r !! "database_url"
         = Some (DStr (if truthy (getenv "DATABASE_URL") then "✅ Set" else "❌ Not Set")) ∧
       r !! "database_name"
         = Some (DStr (if truthy (getenv "DATABASE_NAME") then "✅ Set" else "❌ Not Set")) ∧
       r !! "connection_status"
         = Some (DStr (match db with Some _ => "Connected" | None => "Not Connected" end)).
Proof.
  destruct db as [D|]; [destruct (fault D) as [msg|] eqn:Hf |].
  - run_diagnostics Hf. eexists. split; [reflexivity |]. repeat split; lookup_item.
  - run_diagnostics Hf. eexists. split; [reflexivity |]. repeat split; lookup_item.
  - eexists. split; [reflexivity |]. repeat split; lookup_item.
Qed.

(** The [database] entry of the report tells the three states apart: a
    handle that was never set up, a store that answers, and a store whose
    enumeration fails; the text written first, before the handle is looked
    at, is never what the report shows. *)
Theorem test_database_database_entry (getenv : string → option string) (db : handle) :
  ∃ r, test_database getenv db = Return r ∧
       r !! "database" =
         Some (DStr (match db with
                     | None => "⚠️  Available but not initialized"
                     | Some D =>
                         match fault D with
                         | None => "✅ Connected & Working"
                         | Some msg => "⚠️  Connected but Error: " +:+ py_slice_to 50 msg
                         end
                     end)).
Proof.
  destruct db as [D|]; [destruct (fault D) as [msg|] eqn:Hf |].
  - run_diagnostics Hf. eexists. split; [reflexivity | lookup_item].
  - run_diagnostics Hf. eexists. split; [reflexivity | lookup_item].
  - eexists. split; [reflexivity | lookup_item].
Qed.
